(** * The metrics handler of CLIProxyAPI: [GetMetrics]

    A shallow embedding of [internal/api/handlers/metrics/handler.go] and the
    properties of the report it writes: the window it derives from the query,
    the three aggregates it accumulates while walking the usage snapshot, and
    the two sorted sequences it materialises from its accumulator maps. *)

From Stdlib Require Import ZArith Lia List String Ascii Permutation.
From Stdlib Require Import Sorting.Sorted DecimalString.
From stdpp Require Import gmap strings list fin_maps sorting.

Local Open Scope Z_scope.

(** ** Go's [int64]

    [totalTokens], [totalRequests] and the counters of the report entries are
    [int64]: a value is an integer in [[-2^63, 2^63)] and [+], [++] and [+=]
    wrap around. *)

Definition wrap64 (z : Z) : Z := (z + 2 ^ 63) mod 2 ^ 64 - 2 ^ 63.

Definition add64 (a b : Z) : Z := wrap64 (a + b).

Definition is_int64 (z : Z) : Prop := - 2 ^ 63 <= z < 2 ^ 63.

(** The sum a Go loop [s += x] computes over a slice of [int64]. *)
Definition sum64 (l : list Z) : Z := fold_left add64 l 0.

(** The same sum in unbounded integers. *)
Definition sumZ (l : list Z) : Z := fold_right Z.add 0 l.

(** ** Package [time]

    The part of Go's [time] package the handler calls.  A [Time] is an
    instant on the wall clock (seconds and nanoseconds counted from
    January 1 of year 1, 00:00:00 UTC), an optional reading of the
    monotonic clock, and a pointer to a [Location].  The seconds are kept in
    [Z]: Go stores them in an [int64] and saturates at its ends, some 292
    billion years away from year 1. *)

Module time.

Definition Duration := Z.

Definition Nanosecond : Duration := 1.
Definition Second : Duration := 1000000000.
Definition Minute : Duration := 60 * Second.
Definition Hour : Duration := 60 * Minute.

(** [*Location] is a pointer: [0] is nil, which Go reads as UTC (and
    [&utcLoc] is always stored as nil). *)
Abbreviation Location := N.

Definition UTC : Location := 0%N.

Record Time := mkTime {
  sec : Z;            (* seconds since January 1, year 1 00:00:00 UTC *)
  nsec : Z;           (* nanoseconds within the second, [0, 999999999] *)
  mono : option Z;    (* monotonic clock reading in nanoseconds, if any *)
  loc : Location
}.

(** Go's [==] on [Time] compares the wall clock, the monotonic reading and
    the location pointer; this is the equality a [map[time.Time]] uses
    for its keys. *)
#[global] Instance Time_eq_dec : EqDecision Time.
Proof. solve_decision. Defined.

#[global] Instance Time_countable : Countable Time :=
  inj_countable'
    (fun t => (sec t, nsec t, mono t, loc t))
    (fun p => match p with (s, n, m, l) => mkTime s n m l end)
    (fun t => match t with mkTime _ _ _ _ => eq_refl end).

(** The zero value [Time{}]. *)
Definition zero : Time := {| sec := 0; nsec := 0; mono := None; loc := UTC |}.

Definition wf (t : Time) : Prop := 0 <= nsec t < 1000000000.

(** Nanoseconds since the zero instant. *)
Definition abs_ns (t : Time) : Z := sec t * 1000000000 + nsec t.

Definition IsZero (t : Time) : bool := (sec t =? 0) && (nsec t =? 0).

(** [t.Before(u)]: when both carry a monotonic reading the comparison
    uses those readings alone; otherwise it compares the wall clock. *)
Definition Before (t u : Time) : bool :=
  match mono t, mono u with
  | Some mt, Some mu => mt <? mu
  | _, _ => (sec t <? sec u) || ((sec t =? sec u) && (nsec t <? nsec u))
  end.

Definition After (t u : Time) : bool :=
  match mono t, mono u with
  | Some mt, Some mu => mt >? mu
  | _, _ => (sec t >? sec u) || ((sec t =? sec u) && (nsec t >? nsec u))
  end.


Definition stripMono (t : Time) : Time :=
  {| sec := sec t; nsec := nsec t; mono := None; loc := loc t |}.

(** [t.Add(d)]: Go splits [d] with its truncating [/] and [%], then
    carries the nanoseconds; a monotonic reading moves by [d] too. *)
Definition Add (t : Time) (d : Duration) : Time :=
  let dsec := Z.quot d 1000000000 in
  let ns := nsec t + Z.rem d 1000000000 in
  let '(dsec, ns) :=
    if ns >=? 1000000000 then (dsec + 1, ns - 1000000000)
    else if ns <? 0 then (dsec - 1, ns + 1000000000)
    else (dsec, ns) in
  {| sec := sec t + dsec; nsec := ns;
     mono := option_map (fun m => m + d) (mono t); loc := loc t |}.

(** [t.Truncate(d)]: strips the monotonic reading and rounds [t] down to
    a multiple of [d] since the zero instant.  It works on the absolute
    time, not on the time as presented in [t]'s location. *)
Definition Truncate (t : Time) (d : Duration) : Time :=
  let t := stripMono t in
  if d <=? 0 then t
  else Add t (- (abs_ns t mod d)).

(** The layouts; the handler only uses [time.RFC3339],
    [2006-01-02T15:04:05Z07:00]. *)
Inductive Layout := RFC3339.

(** Year, month and day of a day number (day 0 is January 1 of year 1)
    in the proleptic Gregorian calendar. *)
Definition civil (days : Z) : Z * Z * Z :=
  let z := days + 306 in
  let era := z / 146097 in
  let doe := z mod 146097 in
  let yoe := (doe - doe / 1460 + doe / 36524 - doe / 146096) / 365 in
  let doy := doe - (365 * yoe + yoe / 4 - yoe / 100) in
  let mp := (5 * doy + 2) / 153 in
  let d := doy - (153 * mp + 2) / 5 + 1 in
  let m := if mp <? 10 then mp + 3 else mp - 9 in
  let y := yoe + era * 400 + (if m <=? 2 then 1 else 0) in
  (y, m, d).

(** The day number of a date: the inverse of [civil]. *)
Definition days_of_civil (y m d : Z) : Z :=
  let y := if m <=? 2 then y - 1 else y in
  let era := y / 400 in
  let yoe := y mod 400 in
  let mp := if m >? 2 then m - 3 else m + 9 in
  let doy := (153 * mp + 2) / 5 + d - 1 in
  let doe := yoe * 365 + yoe / 4 - yoe / 100 + doy in
  era * 146097 + doe - 306.

(** [appendInt]: the decimal digits of [x], zero-padded to [width], after
    a minus sign when [x] is negative. *)
Definition digits (x : Z) : string :=
  NilZero.string_of_uint (N.to_uint (Z.to_N x)).

Fixpoint zeros (n : nat) : string :=
  match n with
  | O => EmptyString
  | S n => String "0" (zeros n)
  end.

Definition appendInt (x : Z) (width : nat) : string :=
  let ds := digits (Z.abs x) in
  let sign := if x <? 0 then "-"%string else EmptyString in
  (sign ++ zeros (width - String.length ds)%nat ++ ds)%string.

(** The zone suffix of layout element [Z07:00]. *)
Definition formatZone (off : Z) : string :=
  if off =? 0 then "Z"%string
  else
    let zone := Z.quot off 60 in
    let sign := if zone <? 0 then "-"%string else "+"%string in
    let hh := appendInt (Z.abs zone / 60) 2 in
    let mm := appendInt (Z.abs zone mod 60) 2 in
    (sign ++ hh ++ ":" ++ mm)%string.

Section Zones.

(** What each location pointer points to, reduced to the zone offset
    (seconds east of UTC) it puts in effect at an instant given in
    seconds. *)
Variable lookup : Location -> Z -> Z.

Definition offset (t : Time) : Z := lookup (loc t) (sec t).

(** Seconds since the zero instant, shifted into the location: the
    clock and the date are read off this number. *)
Definition locabs (t : Time) : Z := sec t + offset t.

Definition HourOf (t : Time) : Z := (locabs t mod 86400) / 3600.
Definition MinuteOf (t : Time) : Z := (locabs t mod 3600) / 60.
Definition SecondOf (t : Time) : Z := locabs t mod 60.

(** [t.Format(layout)]. *)
Definition Format (t : Time) (layout : Layout) : string :=
  match layout with
  | RFC3339 =>
      let '(y, m, d) := civil (locabs t / 86400) in
      (appendInt y 4 ++ "-" ++ appendInt m 2 ++ "-" ++ appendInt d 2 ++
       "T" ++ appendInt (HourOf t) 2 ++ ":" ++ appendInt (MinuteOf t) 2 ++
       ":" ++ appendInt (SecondOf t) 2 ++ formatZone (offset t))%string
  end.

End Zones.

(** [time.Date(y, m, d, hh, mm, ss, 0, time.UTC)]. *)
Definition DateUTC (y m d hh mm ss : Z) : Time :=
  {| sec := days_of_civil y m d * 86400 + hh * 3600 + mm * 60 + ss;
     nsec := 0; mono := None; loc := UTC |}.

(** *** A parser for the examples

    [time.Parse(time.RFC3339, s)] restricted to the spelling
    [YYYY-MM-DDTHH:MM:SSZ]: on such a string it returns the UTC time Go
    returns; on any other string it reports an error (Go accepts further
    spellings: offsets, fractional seconds).  The handler is embedded over
    an arbitrary parser; this one instantiates it on concrete queries. *)

Definition digit (c : ascii) : option Z :=
  let n := Z.of_N (N_of_ascii c) in
  if (48 <=? n) && (n <=? 57) then Some (n - 48) else None.

Fixpoint number (s : string) (acc : Z) : option Z :=
  match s with
  | EmptyString => Some acc
  | String c s' =>
      match digit c with
      | Some d => number s' (10 * acc + d)
      | None => None
      end
  end.

Definition field (s : string) (i n : nat) : option Z :=
  number (substring i n s) 0.

Definition isLeap (y : Z) : bool :=
  (y mod 4 =? 0) && (negb (y mod 100 =? 0) || (y mod 400 =? 0)).

Definition daysIn (m y : Z) : Z :=
  if m =? 2 then (if isLeap y then 29 else 28)
  else if (m =? 4) || (m =? 6) || (m =? 9) || (m =? 11) then 30
  else 31.

Definition separators (s : string) : bool :=
  String.eqb (substring 4 1 s) "-" && String.eqb (substring 7 1 s) "-" &&
  String.eqb (substring 10 1 s) "T" && String.eqb (substring 13 1 s) ":" &&
  String.eqb (substring 16 1 s) ":" && String.eqb (substring 19 1 s) "Z".

Definition parseUTC (s : string) : option Time :=
  if negb (Nat.eqb (String.length s) 20 && separators s) then None
  else
    match field s 0 4, field s 5 2, field s 8 2,
          field s 11 2, field s 14 2, field s 17 2 with
    | Some y, Some m, Some d, Some hh, Some mm, Some ss =>
        if (1 <=? m) && (m <=? 12) && (1 <=? d) && (d <=? daysIn m y) &&
           (hh <=? 23) && (mm <=? 59) && (ss <=? 59)
        then Some (DateUTC y m d hh mm ss)
        else None
    | _, _, _, _, _, _ => None
    end.

Definition ParseUTC (layout : Layout) (s : string) : option Time :=
  match layout with
  | RFC3339 => parseUTC s
  end.

End time.

(** ** Package [usage]: the snapshot the handler reads *)

Module usage.

(** Modelled from the spec: package [usage] is imported by the handler but
    its declarations are not among the sources; a detail is a timestamp
    and a token count, read by the handler as [detail.Timestamp] and
    [detail.Tokens.TotalTokens] (added to an [int64]). *)
Record TokenStats := mkTokenStats {
  TotalTokens : Z
}.

(** Modelled from the spec: one recorded request (UsageDetail). *)
Record RequestDetail := mkRequestDetail {
  Timestamp : time.Time;
  Tokens : TokenStats
}.

(** Modelled from the spec: the sequence of details kept for one model. *)
Record ModelSnapshot := mkModelSnapshot {
  Details : list RequestDetail
}.

(** Modelled from the spec: a provider's map from model name to
    [ModelSnapshot].  A Go map is given by its entries in the order [range]
    yields them, which Go leaves unspecified: what is proved for every list
    holds for whichever order the runtime picks. *)
Record APISnapshot := mkAPISnapshot {
  Models : list (string * ModelSnapshot)
}.

(** Modelled from the spec: the map from provider to [APISnapshot], given
    by its entries in [range] order as well. *)
Record StatisticsSnapshot := mkStatisticsSnapshot {
  APIs : list (string * APISnapshot)
}.

(** What being a value of these Go types adds to the shapes above: map keys
    are pairwise distinct, token counts are [int64], nanoseconds are below
    one second. *)
Definition wf_detail (d : RequestDetail) : Prop :=
  time.wf (Timestamp d) /\ is_int64 (TotalTokens (Tokens d)).

Definition wf_api (a : APISnapshot) : Prop :=
  NoDup (map fst (Models a)) /\
  Forall (fun e => Forall wf_detail (Details (snd e))) (Models a).

Definition wf (s : StatisticsSnapshot) : Prop :=
  NoDup (map fst (APIs s)) /\ Forall (fun e => wf_api (snd e)) (APIs s).

End usage.

(** ** Package [net/http]: the two status codes *)

Module http.
Definition StatusOK : Z := 200.
Definition StatusBadRequest : Z := 400.
End http.

(** ** Package [sort] *)

Module sort.

Fixpoint insert {A : Type} (less : A -> A -> bool) (x : A) (l : list A)
  : list A :=
  match l with
  | [] => [x]
  | y :: l' => if less y x then y :: insert less x l' else x :: y :: l'
  end.

(** [sort.Slice(x, less)] rearranges [x] so that no element is [less] than
    an earlier one; it promises nothing about the order of elements neither
    of which is [less] than the other.  Insertion is one such sort. *)
Definition Slice {A : Type} (less : A -> A -> bool) (x : list A) : list A :=
  fold_right (insert less) [] x.

End sort.

(** ** The response structs of the handler *)

Module TotalsMetrics.
Record t := mk {
  Tokens : Z;
  Requests : Z
}.
End TotalsMetrics.
Abbreviation TotalsMetrics := TotalsMetrics.t.

Module ModelMetrics.
Record t := mk {
  Model : string;
  Tokens : Z;
  Requests : Z
}.
End ModelMetrics.
Abbreviation ModelMetrics := ModelMetrics.t.

Module TimeseriesBucket.
Record t := mk {
  BucketStart : string;
  Tokens : Z;
  Requests : Z
}.
End TimeseriesBucket.
Abbreviation TimeseriesBucket := TimeseriesBucket.t.

Record MetricsResponse := mkMetricsResponse {
  Totals : TotalsMetrics;
  ByModel : list ModelMetrics;
  Timeseries : list TimeseriesBucket
}.

(** The three query parameters as [c.Query] hands them over: the empty
    string when the parameter is absent. *)
Record Query := mkQuery {
  fromStr : string;
  toStr : string;
  modelFilter : string
}.

(** What the handler does to the outside, in order. *)
Inductive Body :=
| ErrorBody (msg : string)          (* gin.H{"error": msg} *)
| ReportBody (resp : MetricsResponse).

Inductive Event :=
| Snapshot                          (* h.Stats.Snapshot() *)
| Println (resp : MetricsResponse)  (* fmt.Println of the indented JSON *)
| JSON (code : Z) (body : Body).    (* c.JSON(code, body) *)

(** The locals of [GetMetrics] that the traversal updates. *)
Record Locals := mkLocals {
  modelMetricsMap : gmap string ModelMetrics;
  timeseriesMap : gmap time.Time TimeseriesBucket;
  totalTokens : Z;
  totalRequests : Z
}.

Definition isEmpty (s : string) : bool := String.eqb s EmptyString.

Section GetMetrics.

(** [time.Parse(layout, value)]: the parsed time, or [None] for an error.
    The handler is embedded over any parser. *)
Variable Parse : time.Layout -> string -> option time.Time.

(** The zone table behind the location pointers, used by [Format]. *)
Variable lookup : time.Location -> Z -> Z.

(** Lines 66-72 and 73-79: a bound that is supplied is parsed, and a parse
    error ends the call with [msg]; a bound that is not supplied keeps the
    zero value of its variable. *)
Definition parseBound (s msg : string) : string + time.Time :=
  if negb (isEmpty s) then
    match Parse time.RFC3339 s with
    | Some t => inr t
    | None => inl msg
    end
  else inr time.zero.

(** Lines 58-80: the window [(fromTime, toTime)], or the message of the
    400 response.  [now] is what [time.Now()] returns when it is called. *)
Definition window (now : time.Time) (q : Query)
  : string + (time.Time * time.Time) :=
  if isEmpty (fromStr q) && isEmpty (toStr q) then
    let toTime := now in
    let fromTime := time.Add toTime (-24 * time.Hour) in
    inr (fromTime, toTime)
  else
    match parseBound (fromStr q) "invalid 'from' timestamp format" with
    | inl msg => inl msg
    | inr fromTime =>
        match parseBound (toStr q) "invalid 'to' timestamp format" with
        | inl msg => inl msg
        | inr toTime => inr (fromTime, toTime)
        end
    end.

(** Lines 109-110: [Requests++] and [Tokens += ...] through the pointer
    stored in the map. *)
Definition bumpModel (tokens : Z) (mm : ModelMetrics) : ModelMetrics :=
  ModelMetrics.mk (ModelMetrics.Model mm)
    (add64 (ModelMetrics.Tokens mm) tokens)
    (add64 (ModelMetrics.Requests mm) 1).

(** Lines 106-110. *)
Definition countModel (modelName : string) (tokens : Z)
    (m : gmap string ModelMetrics) : gmap string ModelMetrics :=
  let m :=
    match m !! modelName with
    | Some _ => m
    | None => <[modelName := ModelMetrics.mk modelName 0 0]> m
    end in
  alter (bumpModel tokens) modelName m.

(** Lines 116-117. *)
Definition bumpBucket (tokens : Z) (tb : TimeseriesBucket) : TimeseriesBucket :=
  TimeseriesBucket.mk (TimeseriesBucket.BucketStart tb)
    (add64 (TimeseriesBucket.Tokens tb) tokens)
    (add64 (TimeseriesBucket.Requests tb) 1).

(** Lines 113-117. *)
Definition countBucket (bucket : time.Time) (tokens : Z)
    (m : gmap time.Time TimeseriesBucket) : gmap time.Time TimeseriesBucket :=
  let m :=
    match m !! bucket with
    | Some _ => m
    | None =>
        <[bucket :=
            TimeseriesBucket.mk (time.Format lookup bucket time.RFC3339) 0 0]>
          m
    end in
  alter (bumpBucket tokens) bucket m.

(** Lines 96-101: whether the body of the innermost loop gets past its two
    [continue]s. *)
Definition inWindow (fromTime toTime : time.Time) (detail : usage.RequestDetail)
  : bool :=
  if negb (time.IsZero fromTime) &&
     time.Before (usage.Timestamp detail) fromTime then false
  else if negb (time.IsZero toTime) &&
          time.After (usage.Timestamp detail) toTime then false
  else true.

(** Lines 103-117: what a detail that is not skipped adds to the locals. *)
Definition countDetail (modelName : string) (st : Locals)
    (detail : usage.RequestDetail) : Locals :=
  let tokens := usage.TotalTokens (usage.Tokens detail) in
  let bucket := time.Truncate (usage.Timestamp detail) time.Hour in
  {| totalRequests := add64 (totalRequests st) 1;
     totalTokens := add64 (totalTokens st) tokens;
     modelMetricsMap := countModel modelName tokens (modelMetricsMap st);
     timeseriesMap := countBucket bucket tokens (timeseriesMap st) |}.

(** Lines 95-118: one iteration of the innermost loop. *)
Definition visitDetail (fromTime toTime : time.Time) (modelName : string)
    (st : Locals) (detail : usage.RequestDetail) : Locals :=
  if inWindow fromTime toTime detail then countDetail modelName st detail
  else st.

(** Lines 91-93: whether the model loop goes on to the details of
    [modelName]. *)
Definition passesFilter (filter modelName : string) : bool :=
  negb (negb (isEmpty filter) && negb (String.eqb filter modelName)).

(** Lines 90-119: one iteration of the loop over [apiSnapshot.Models]. *)
Definition visitModel (fromTime toTime : time.Time) (filter : string)
    (st : Locals) (entry : string * usage.ModelSnapshot) : Locals :=
  let '(modelName, modelSnapshot) := entry in
  if passesFilter filter modelName then
    fold_left (visitDetail fromTime toTime modelName)
      (usage.Details modelSnapshot) st
  else st.

(** Lines 89-120: one iteration of the loop over [snapshot.APIs]. *)
Definition visitAPI (fromTime toTime : time.Time) (filter : string)
    (st : Locals) (entry : string * usage.APISnapshot) : Locals :=
  fold_left (visitModel fromTime toTime filter) (usage.Models (snd entry)) st.

(** Lines 84-87: the locals before the traversal. *)
Definition initial : Locals :=
  {| modelMetricsMap := ∅; timeseriesMap := ∅;
     totalTokens := 0; totalRequests := 0 |}.

Definition traverse (fromTime toTime : time.Time) (filter : string)
    (snapshot : usage.StatisticsSnapshot) : Locals :=
  fold_left (visitAPI fromTime toTime filter) (usage.APIs snapshot) initial.

(** Lines 122-145: the response built from the locals.  [range] over each
    accumulator map yields its values in some order, here the one of
    [map_to_list]; the slices are then sorted. *)
Definition respond (st : Locals) : MetricsResponse :=
  {| Totals := TotalsMetrics.mk (totalTokens st) (totalRequests st);
     ByModel :=
       sort.Slice
         (fun a b => String.ltb (ModelMetrics.Model a) (ModelMetrics.Model b))
         (map snd (map_to_list (modelMetricsMap st)));
     Timeseries :=
       sort.Slice
         (fun a b => String.ltb (TimeseriesBucket.BucketStart a)
                                (TimeseriesBucket.BucketStart b))
         (map snd (map_to_list (timeseriesMap st))) |}.

(** Lines 84-145 as a function of the window, the filter and the snapshot. *)
Definition report (fromTime toTime : time.Time) (filter : string)
    (snapshot : usage.StatisticsSnapshot) : MetricsResponse :=
  respond (traverse fromTime toTime filter snapshot).

(** [GetMetrics]: [now] is the reading of [time.Now()], [snapshot] what
    [h.Stats.Snapshot()] returns; the result lists what the handler does. *)
Definition GetMetrics (now : time.Time) (snapshot : usage.StatisticsSnapshot)
    (q : Query) : list Event :=
  match window now q with
  | inl msg => [JSON http.StatusBadRequest (ErrorBody msg)]
  | inr (fromTime, toTime) =>
      let resp := report fromTime toTime (modelFilter q) snapshot in
      [Snapshot; Println resp; JSON http.StatusOK (ReportBody resp)]
  end.

(** The call answers 200 with report [resp]. *)
Definition Returns (now : time.Time) (snapshot : usage.StatisticsSnapshot)
    (q : Query) (resp : MetricsResponse) : Prop :=
  GetMetrics now snapshot q
  = [Snapshot; Println resp; JSON http.StatusOK (ReportBody resp)].

(** *** The details a call counts

    The traversal flattened: the details it reaches past the model filter,
    each with the model name it is filed under, in the order it reaches
    them; and those of them that get past the two [continue]s of the
    window. *)
Definition visited (filter : string) (snapshot : usage.StatisticsSnapshot)
  : list (string * usage.RequestDetail) :=
  flat_map
    (fun api =>
       flat_map
         (fun entry =>
            if passesFilter filter (fst entry)
            then map (pair (fst entry)) (usage.Details (snd entry))
            else [])
         (usage.Models (snd api)))
    (usage.APIs snapshot).

Definition matching (fromTime toTime : time.Time) (filter : string)
    (snapshot : usage.StatisticsSnapshot)
  : list (string * usage.RequestDetail) :=
  List.filter (fun e => inWindow fromTime toTime (snd e))
    (visited filter snapshot).

Definition countEntry (st : Locals) (e : string * usage.RequestDetail)
  : Locals :=
  countDetail (fst e) st (snd e).

(** The locals after counting the details of [l] in order. *)
Definition counting (l : list (string * usage.RequestDetail)) : Locals :=
  fold_left countEntry l initial.

Definition tokensOf (l : list (string * usage.RequestDetail)) : list Z :=
  map (fun e => usage.TotalTokens (usage.Tokens (snd e))) l.

Definition bucketOf (e : string * usage.RequestDetail) : time.Time :=
  time.Truncate (usage.Timestamp (snd e)) time.Hour.

Definition ofModel (modelName : string)
    (l : list (string * usage.RequestDetail)) :=
  List.filter (fun e => bool_decide (fst e = modelName)) l.

Definition ofBucket (bucket : time.Time)
    (l : list (string * usage.RequestDetail)) :=
  List.filter (fun e => bool_decide (bucketOf e = bucket)) l.

(** The entry a list of counted details gives a model name: none when no
    detail is filed under it, else their [int64] sums. *)
Definition modelEntry (modelName : string)
    (l : list (string * usage.RequestDetail)) : option ModelMetrics :=
  match ofModel modelName l with
  | [] => None
  | ds =>
      Some (ModelMetrics.mk modelName (wrap64 (sumZ (tokensOf ds)))
              (wrap64 (Z.of_nat (length ds))))
  end.

(** The entry a list of counted details gives an hour bucket. *)
Definition bucketEntry (bucket : time.Time)
    (l : list (string * usage.RequestDetail)) : option TimeseriesBucket :=
  match ofBucket bucket l with
  | [] => None
  | ds =>
      Some (TimeseriesBucket.mk (time.Format lookup bucket time.RFC3339)
              (wrap64 (sumZ (tokensOf ds))) (wrap64 (Z.of_nat (length ds))))
  end.

(** A report aggregates the details of [l]: its totals are their sums, its
    [by_model] entries are the entries of the model names of [l] and its
    [timeseries] entries those of the hour buckets of [l]. *)
Definition Aggregates (l : list (string * usage.RequestDetail))
    (resp : MetricsResponse) : Prop :=
  Totals resp
  = TotalsMetrics.mk (wrap64 (sumZ (tokensOf l))) (wrap64 (Z.of_nat (length l)))
  /\ (forall x, In x (ByModel resp) <-> exists name, modelEntry name l = Some x)
  /\ (forall x, In x (Timeseries resp) <->
                exists bucket, bucketEntry bucket l = Some x).

(** The counted details do not overflow an [int64]: token counts are not
    negative, and neither their sum nor their number reaches [2^63]. *)
Definition noOverflow (l : list (string * usage.RequestDetail)) : Prop :=
  Forall (fun e => 0 <= usage.TotalTokens (usage.Tokens (snd e))) l /\
  sumZ (tokensOf l) < 2 ^ 63 /\
  Z.of_nat (length l) < 2 ^ 63.

(** The report of a call that counts nothing. *)
Definition emptyReport : MetricsResponse :=
  {| Totals := TotalsMetrics.mk 0 0; ByModel := []; Timeseries := [] |}.

End GetMetrics.

(** The sum of a measure over the values of an accumulator map. *)
Definition msum `{Countable K} {V : Type} (g : V -> Z) (m : gmap K V) : Z :=
  sumZ (map g (map snd (map_to_list m))).

(** The snapshot with its providers renamed. *)
Definition renameProviders (f : string -> string)
    (snapshot : usage.StatisticsSnapshot) : usage.StatisticsSnapshot :=
  usage.mkStatisticsSnapshot
    (map (fun e => (f (fst e), snd e)) (usage.APIs snapshot)).


(** The details of a snapshot, whatever provider and model they are under. *)
Definition allDetails (snapshot : usage.StatisticsSnapshot)
  : list usage.RequestDetail :=
  flat_map (fun api => flat_map (fun e => usage.Details (snd e))
                         (usage.Models (snd api)))
    (usage.APIs snapshot).

(** The monotonic and the wall clock agree on the time between [t] and
    [now]; nothing is asked when one of the two has no monotonic reading. *)
Definition clocksAgree (now t : time.Time) : Prop :=
  match time.mono now, time.mono t with
  | Some mn, Some mt => mt - mn = time.abs_ns t - time.abs_ns now
  | _, _ => True
  end.

(** Two times show the same wall clock. *)
Definition sameInstant (t u : time.Time) : Prop :=
  time.sec t = time.sec u /\ time.nsec t = time.nsec u.

(** ** The scenario of the specification, run through the embedding *)

Module Scenario.

(** Every location is UTC. *)
Definition zones (l : time.Location) (at_sec : Z) : Z := 0.

Definition detail (t : time.Time) (tokens : Z) : usage.RequestDetail :=
  usage.mkRequestDetail t (usage.mkTokenStats tokens).

Definition snapshot : usage.StatisticsSnapshot :=
  usage.mkStatisticsSnapshot
    [("P1"%string,
      usage.mkAPISnapshot
        [("gpt"%string,
          usage.mkModelSnapshot
            [detail (time.DateUTC 2024 1 1 10 5 0) 100;
             detail (time.DateUTC 2024 1 1 10 50 0) 50]);
         ("claude"%string,
          usage.mkModelSnapshot
            [detail (time.DateUTC 2024 1 1 11 10 0) 200])])].

Definition query : Query :=
  mkQuery "2024-01-01T00:00:00Z" "2024-01-01T23:59:59Z" EmptyString.

Definition expected : MetricsResponse :=
  {| Totals := TotalsMetrics.mk 350 3;
     ByModel := [ModelMetrics.mk "claude" 200 1; ModelMetrics.mk "gpt" 150 2];
     Timeseries :=
       [TimeseriesBucket.mk "2024-01-01T10:00:00Z" 150 2;
        TimeseriesBucket.mk "2024-01-01T11:00:00Z" 200 1] |}.

(** Any reading of the clock: the query gives both bounds. *)
Definition now : time.Time :=
  time.mkTime (time.sec (time.DateUTC 2024 1 2 9 0 0)) 0 (Some 5000) 1%N.

End Scenario.

(** ** The bucketing and the bounds of the specification's properties *)

Module Bucketing.

Definition snapshot : usage.StatisticsSnapshot :=
  usage.mkStatisticsSnapshot
    [("P1"%string,
      usage.mkAPISnapshot
        [("gpt"%string,
          usage.mkModelSnapshot
            [Scenario.detail (time.DateUTC 2024 1 1 10 15 0) 1;
             Scenario.detail (time.DateUTC 2024 1 1 10 45 30) 2;
             Scenario.detail (time.DateUTC 2024 1 1 11 0 0) 4])])].

Definition reported : MetricsResponse :=
  {| Totals := TotalsMetrics.mk 7 3;
     ByModel := [ModelMetrics.mk "gpt" 7 3];
     Timeseries :=
       [TimeseriesBucket.mk "2024-01-01T10:00:00Z" 3 2;
        TimeseriesBucket.mk "2024-01-01T11:00:00Z" 4 1] |}.

End Bucketing.

Module Bounds.

(** One second before [from], exactly at [from], exactly at [to], one
    second after [to]. *)
Definition snapshot : usage.StatisticsSnapshot :=
  usage.mkStatisticsSnapshot
    [("P1"%string,
      usage.mkAPISnapshot
        [("gpt"%string,
          usage.mkModelSnapshot
            [Scenario.detail (time.DateUTC 2023 12 31 23 59 59) 1;
             Scenario.detail (time.DateUTC 2024 1 1 0 0 0) 2;
             Scenario.detail (time.DateUTC 2024 1 1 23 59 59) 4;
             Scenario.detail (time.DateUTC 2024 1 2 0 0 0) 8])])].

Definition reported : MetricsResponse :=
  {| Totals := TotalsMetrics.mk 6 2;
     ByModel := [ModelMetrics.mk "gpt" 6 2];
     Timeseries :=
       [TimeseriesBucket.mk "2024-01-01T00:00:00Z" 2 1;
        TimeseriesBucket.mk "2024-01-01T23:00:00Z" 4 1] |}.

End Bounds.

(** ** A timestamp in a zone half an hour off the hour *)

Module HalfHourZone.

(** The location at address 7 is UTC+05:30. *)
Definition zones (l : time.Location) (at_sec : Z) : Z :=
  if (l =? 7)%N then 19800 else 0.

(** 2024-01-01T10:15:00+05:30, which is 04:45:00 UTC. *)
Definition timestamp : time.Time :=
  time.mkTime (time.sec (time.DateUTC 2024 1 1 4 45 0)) 0 None 7%N.

Definition snapshot : usage.StatisticsSnapshot :=
  usage.mkStatisticsSnapshot
    [("P1"%string,
      usage.mkAPISnapshot
        [("gpt"%string,
          usage.mkModelSnapshot [Scenario.detail timestamp 100])])].

Definition reported : MetricsResponse :=
  {| Totals := TotalsMetrics.mk 100 1;
     ByModel := [ModelMetrics.mk "gpt" 100 1];
     Timeseries := [TimeseriesBucket.mk "2024-01-01T09:30:00+05:30" 100 1] |}.

End HalfHourZone.

(** ** A machine that slept for two days

    The process has run for two hours of monotonic time; the one request it
    recorded is an hour old on the monotonic clock and forty-nine hours
    old on the wall clock, the machine having been suspended in between. *)

Module SuspendedClock.

Definition zones (l : time.Location) (at_sec : Z) : Z := 0.

Definition now : time.Time :=
  time.mkTime (time.sec (time.DateUTC 2024 1 3 12 0 0)) 0
    (Some (2 * time.Hour)) 1%N.

Definition timestamp : time.Time :=
  time.mkTime (time.sec (time.DateUTC 2024 1 1 11 0 0)) 0
    (Some (1 * time.Hour)) 1%N.

Definition snapshot : usage.StatisticsSnapshot :=
  usage.mkStatisticsSnapshot
    [("P1"%string,
      usage.mkAPISnapshot
        [("gpt"%string,
          usage.mkModelSnapshot [Scenario.detail timestamp 10])])].

Definition defaultQuery : Query := mkQuery EmptyString EmptyString EmptyString.

(** The bounds [now - 24h] and [now], spelled out. *)
Definition explicitQuery : Query :=
  mkQuery "2024-01-02T12:00:00Z" "2024-01-03T12:00:00Z" EmptyString.

(** What the two strings parse to. *)
Definition lower : time.Time := time.DateUTC 2024 1 2 12 0 0.
Definition upper : time.Time := time.DateUTC 2024 1 3 12 0 0.

Definition reported : MetricsResponse :=
  {| Totals := TotalsMetrics.mk 10 1;
     ByModel := [ModelMetrics.mk "gpt" 10 1];
     Timeseries := [TimeseriesBucket.mk "2024-01-01T11:00:00Z" 10 1] |}.

End SuspendedClock.

(** ** Timestamps of one hour in two locations

    One detail carries a UTC time (location nil), the other a time in
    [time.Local] (address 1) on a machine whose local zone is UTC. *)

Module MixedLocations.

Definition zones (l : time.Location) (at_sec : Z) : Z := 0.

Definition inUTC : time.Time := time.DateUTC 2024 1 1 10 5 0.

Definition inLocal : time.Time :=
  time.mkTime (time.sec (time.DateUTC 2024 1 1 10 50 0)) 0
    (Some 7000000000) 1%N.

Definition snapshot : usage.StatisticsSnapshot :=
  usage.mkStatisticsSnapshot
    [("P1"%string,
      usage.mkAPISnapshot
        [("gpt"%string,
          usage.mkModelSnapshot
            [Scenario.detail inUTC 100; Scenario.detail inLocal 50])])].

Definition reported : MetricsResponse :=
  {| Totals := TotalsMetrics.mk 150 2;
     ByModel := [ModelMetrics.mk "gpt" 150 2];
     Timeseries :=
       [TimeseriesBucket.mk "2024-01-01T10:00:00Z" 100 1;
        TimeseriesBucket.mk "2024-01-01T10:00:00Z" 50 1] |}.

End MixedLocations.

(** ** A process whose two clocks agree

    The request was recorded an hour before [now] on either clock. *)

Module AgreeingClocks.

Definition now : time.Time :=
  time.mkTime (time.sec (time.DateUTC 2024 1 2 9 0 0)) 0
    (Some (2 * time.Hour)) 1%N.

Definition timestamp : time.Time :=
  time.mkTime (time.sec (time.DateUTC 2024 1 2 8 0 0)) 0
    (Some (1 * time.Hour)) 1%N.

Definition snapshot : usage.StatisticsSnapshot :=
  usage.mkStatisticsSnapshot
    [("P1"%string,
      usage.mkAPISnapshot
        [("gpt"%string,
          usage.mkModelSnapshot [Scenario.detail timestamp 10])])].

Definition lower : time.Time := time.DateUTC 2024 1 1 9 0 0.
Definition upper : time.Time := time.DateUTC 2024 1 2 9 0 0.

End AgreeingClocks.

(** ** Two providers serving one model name *)

Module TwoProviders.

Definition snapshot : usage.StatisticsSnapshot :=
  usage.mkStatisticsSnapshot
    [("P1"%string,
      usage.mkAPISnapshot
        [("gpt"%string,
          usage.mkModelSnapshot
            [Scenario.detail (time.DateUTC 2024 1 1 10 5 0) 100])]);
     ("P2"%string,
      usage.mkAPISnapshot
        [("gpt"%string,
          usage.mkModelSnapshot
            [Scenario.detail (time.DateUTC 2024 1 1 10 50 0) 50])])].

Definition reported : MetricsResponse :=
  {| Totals := TotalsMetrics.mk 150 2;
     ByModel := [ModelMetrics.mk "gpt" 150 2];
     Timeseries := [TimeseriesBucket.mk "2024-01-01T10:00:00Z" 150 2] |}.

End TwoProviders.

(** ** Bounds at the zero instant *)

Module ZeroBound.

Definition zeroInstant : string := "0001-01-01T00:00:00Z".

(** A call two days after the requests of the scenario. *)
Definition now : time.Time :=
  time.mkTime (time.sec (time.DateUTC 2024 1 3 12 0 0)) 0
    (Some (2 * time.Hour)) 1%N.

(** Only [from], at the zero instant. *)
Definition lowerAtZero : Query := mkQuery zeroInstant EmptyString EmptyString.


(** A lower bound between the requests of the scenario, [to] at the zero
    instant. *)
Definition fromEleven : Query :=
  mkQuery "2024-01-01T11:00:00Z" zeroInstant EmptyString.

Definition reported : MetricsResponse :=
  {| Totals := TotalsMetrics.mk 200 1;
     ByModel := [ModelMetrics.mk "claude" 200 1];
     Timeseries := [TimeseriesBucket.mk "2024-01-01T11:00:00Z" 200 1] |}.

End ZeroBound.

(** ** A call without bounds

    One request is an hour old on both clocks, one is exactly 24 hours
    old and one a second older; the last two were restored from a file and
    carry no monotonic reading. *)

Module LastDay.

Definition now : time.Time :=
  time.mkTime (time.sec (time.DateUTC 2024 1 2 9 0 0)) 0
    (Some (30 * time.Hour)) 1%N.

Definition recent : time.Time :=
  time.mkTime (time.sec (time.DateUTC 2024 1 2 8 0 0)) 0
    (Some (29 * time.Hour)) 1%N.

Definition dayOld : time.Time := time.DateUTC 2024 1 1 9 0 0.

Definition older : time.Time := time.DateUTC 2024 1 1 8 59 59.

Definition snapshot : usage.StatisticsSnapshot :=
  usage.mkStatisticsSnapshot
    [("P1"%string,
      usage.mkAPISnapshot
        [("gpt"%string,
          usage.mkModelSnapshot
            [Scenario.detail recent 10; Scenario.detail dayOld 20;
             Scenario.detail older 40])])].

Definition reported : MetricsResponse :=
  {| Totals := TotalsMetrics.mk 30 2;
     ByModel := [ModelMetrics.mk "gpt" 30 2];
     Timeseries :=
       [TimeseriesBucket.mk "2024-01-01T09:00:00Z" 20 1;
        TimeseriesBucket.mk "2024-01-02T08:00:00Z" 10 1] |}.

End LastDay.

(** ** Rows and snapshots used to state further properties *)

(** The [timeseries] row a list of counted details gives an hour bucket
    that has at least one of them. *)
Definition bucketRow (lookup : time.Location -> Z -> Z) (bucket : time.Time)
    (l : list (string * usage.RequestDetail)) : TimeseriesBucket :=
  TimeseriesBucket.mk (time.Format lookup bucket time.RFC3339)
    (wrap64 (sumZ (tokensOf (ofBucket bucket l))))
    (wrap64 (Z.of_nat (length (ofBucket bucket l)))).

(** The snapshot that holds the providers of two snapshots. *)
Definition appendProviders (s1 s2 : usage.StatisticsSnapshot)
  : usage.StatisticsSnapshot :=
  usage.mkStatisticsSnapshot (usage.APIs s1 ++ usage.APIs s2).

(** The query without its model filter. *)
Definition withoutFilter (q : Query) : Query :=
  mkQuery (fromStr q) (toStr q) EmptyString.

(** A bound as [time.Parse] returns it, without monotonic reading, that is
    later than the zero instant (so that the handler does not ignore it). *)
Definition wallBound (t : time.Time) : Prop :=
  time.wf t /\ time.mono t = None /\ 0 < time.abs_ns t.

(** * Properties *)

(** ** The embedding on concrete inputs *)

Example format_epoch :
  time.Format (fun _ _ => 0) (time.mkTime (719162 * 86400) 0 None time.UTC)
    time.RFC3339
  = "1970-01-01T00:00:00Z"%string.
Proof. vm_compute. reflexivity. Qed.

Example format_half_hour_zone :
  time.Format (fun _ _ => 19800)
    (time.mkTime (738885 * 86400 + 4 * 3600 + 45 * 60) 0 None 7%N)
    time.RFC3339
  = "2024-01-01T10:15:00+05:30"%string.
Proof. vm_compute. reflexivity. Qed.

Example scenario_report :
  GetMetrics time.ParseUTC Scenario.zones Scenario.now Scenario.snapshot
    Scenario.query
  = [Snapshot; Println Scenario.expected;
     JSON http.StatusOK (ReportBody Scenario.expected)].
Proof. vm_compute. reflexivity. Qed.

Example bucketing_report :
  GetMetrics time.ParseUTC Scenario.zones Scenario.now Bucketing.snapshot
    Scenario.query
  = [Snapshot; Println Bucketing.reported;
     JSON http.StatusOK (ReportBody Bucketing.reported)].
Proof. vm_compute. reflexivity. Qed.

Example bounds_report :
  GetMetrics time.ParseUTC Scenario.zones Scenario.now Bounds.snapshot
    Scenario.query
  = [Snapshot; Println Bounds.reported;
     JSON http.StatusOK (ReportBody Bounds.reported)].
Proof. vm_compute. reflexivity. Qed.

Example two_providers_report :
  GetMetrics time.ParseUTC Scenario.zones Scenario.now TwoProviders.snapshot
    Scenario.query
  = [Snapshot; Println TwoProviders.reported;
     JSON http.StatusOK (ReportBody TwoProviders.reported)].
Proof. vm_compute. reflexivity. Qed.

Example int64_wraps : add64 (2 ^ 63 - 1) 1 = - 2 ^ 63.
Proof. vm_compute. reflexivity. Qed.

(** ** [int64] arithmetic *)

Ltac int64_consts :=
  change (2 ^ 63) with 9223372036854775808 in *;
  change (2 ^ 64) with 18446744073709551616 in *.

Lemma wrap64_range z : is_int64 (wrap64 z).
Proof.
  unfold is_int64, wrap64. int64_consts.
  pose proof (Z.mod_pos_bound (z + 9223372036854775808) 18446744073709551616
                ltac:(lia)).
  lia.
Qed.

Lemma wrap64_id z : is_int64 z -> wrap64 z = z.
Proof.
  unfold is_int64, wrap64. int64_consts. intros H.
  rewrite Z.mod_small by lia. lia.
Qed.

Lemma wrap64_add_l a b : wrap64 (wrap64 a + b) = wrap64 (a + b).
Proof.
  unfold wrap64. int64_consts. f_equal.
  replace ((a + 9223372036854775808) mod 18446744073709551616
           - 9223372036854775808 + b + 9223372036854775808)
    with ((a + 9223372036854775808) mod 18446744073709551616 + b) by lia.
  rewrite Zplus_mod_idemp_l. f_equal. lia.
Qed.

Lemma fold_add64 l a : is_int64 a -> fold_left add64 l a = wrap64 (a + sumZ l).
Proof.
  revert a. induction l as [|x l IH]; intros a Ha; cbn [fold_left].
  - cbn. rewrite Z.add_0_r. symmetry. by apply wrap64_id.
  - change (sumZ (x :: l)) with (x + sumZ l).
    rewrite IH by apply wrap64_range.
    unfold add64. rewrite wrap64_add_l. apply (f_equal wrap64). lia.
Qed.

Lemma sum64_wrap l : sum64 l = wrap64 (sumZ l).
Proof.
  unfold sum64. rewrite fold_add64; [done|].
  unfold is_int64. int64_consts. lia.
Qed.

Lemma sumZ_app l1 l2 : sumZ (l1 ++ l2) = sumZ l1 + sumZ l2.
Proof.
  induction l1 as [|x l1 IH]; [done|].
  change (sumZ ((x :: l1) ++ l2)) with (x + sumZ (l1 ++ l2)).
  change (sumZ (x :: l1)) with (x + sumZ l1). lia.
Qed.

Lemma sumZ_Permutation l1 l2 : Permutation l1 l2 -> sumZ l1 = sumZ l2.
Proof.
  induction 1 as [|x l l' _ IH|x y l|l l' l'' _ IH1 _ IH2]; [done| | |lia].
  - change (x + sumZ l = x + sumZ l'). lia.
  - change (y + (x + sumZ l) = x + (y + sumZ l)). lia.
Qed.

(** ** Go's [<] on strings *)

Lemma ltb_leb a b : String.ltb a b = negb (String.leb b a).
Proof.
  unfold String.ltb, String.leb. rewrite (String.compare_antisym a b).
  by destruct (String.compare b a).
Qed.

Lemma ltb_false_le a b : String.ltb b a = false <-> String.le a b.
Proof.
  rewrite ltb_leb. unfold String.le.
  destruct (String.leb a b); cbn; intuition congruence.
Qed.

Lemma ltb_asym a b : String.ltb a b = true -> String.ltb b a = false.
Proof.
  intros Hab.
  destruct (total String.le a b) as [H|H]; apply ltb_false_le in H; congruence.
Qed.

Lemma le_neq_ltb a b : String.le a b -> a <> b -> String.ltb a b = true.
Proof.
  intros Hab Hne. destruct (String.ltb a b) eqn:E; [done|].
  apply ltb_false_le in E. destruct Hne. by apply (anti_symm String.le).
Qed.

(** ** [sort.Slice] *)

Section Slice.

Context {A : Type} (less : A -> A -> bool).

Lemma insert_Permutation x l : Permutation (sort.insert less x l) (x :: l).
Proof.
  induction l as [|y l IH]; cbn; [done|].
  destruct (less y x); [|done].
  rewrite IH. apply perm_swap.
Qed.

Lemma Slice_Permutation l : Permutation (sort.Slice less l) l.
Proof.
  induction l as [|x l IH]; cbn; [done|].
  fold (sort.Slice less l). rewrite insert_Permutation. by constructor.
Qed.

Hypothesis less_asym : forall a b, less a b = true -> less b a = false.

Lemma insert_Sorted x l :
  Sorted (fun a b => less b a = false) l ->
  Sorted (fun a b => less b a = false) (sort.insert less x l).
Proof.
  induction 1 as [|y l Hl IH Hhd]; cbn; [by repeat constructor|].
  destruct (less y x) eqn:Hyx.
  - constructor; [done|].
    destruct Hhd as [|z l Hz]; cbn.
    + constructor. by apply less_asym.
    + destruct (less z x); constructor; [done|by apply less_asym].
  - by repeat constructor.
Qed.

Lemma Slice_Sorted l : Sorted (fun a b => less b a = false) (sort.Slice less l).
Proof.
  induction l as [|x l IH]; cbn; [constructor|].
  by apply insert_Sorted.
Qed.

End Slice.

(** Sorting by a string key with [<]: the keys come out in ascending
    order. *)
Lemma Slice_by_key_ascending {A} (key : A -> string) (l : list A) :
  StronglySorted (fun a b => String.ltb b a = false)
    (map key (sort.Slice (fun a b => String.ltb (key a) (key b)) l)).
Proof.
  apply (StronglySorted_fmap key
           (fun a b => String.ltb (key b) (key a) = false)); [done|].
  apply Sorted_StronglySorted.
  - intros a b c Hab Hbc. apply ltb_false_le in Hab, Hbc. apply ltb_false_le.
    by etrans.
  - apply (Slice_Sorted (fun a b => String.ltb (key a) (key b))).
    intros a b. apply ltb_asym.
Qed.

(** Ascending keys without repetition are strictly ascending. *)
Lemma ascending_NoDup_strict (l : list string) :
  StronglySorted (fun a b => String.ltb b a = false) l ->
  NoDup l ->
  StronglySorted (fun a b => String.ltb a b = true) l.
Proof.
  induction 1 as [|x l Hl IH Hx]; intros Hnd; [constructor|].
  apply NoDup_cons in Hnd as [Hx' Hnd].
  constructor; [by apply IH|].
  rewrite Forall_forall in Hx |- *. intros y Hy.
  apply le_neq_ltb; [by apply ltb_false_le, Hx|].
  intros ->. by apply Hx'.
Qed.

(** ** The traversal counts the matching details, one by one *)

Section Traversal.

Variable lookup : time.Location -> Z -> Z.

Lemma visitDetails_filter fromTime toTime name ds st :
  fold_left (visitDetail lookup fromTime toTime name) ds st
  = fold_left (countEntry lookup)
      (List.filter (fun e => inWindow fromTime toTime (snd e))
         (map (pair name) ds)) st.
Proof.
  revert st. induction ds as [|d ds IH]; intros st; [done|].
  cbn [fold_left map List.filter snd]. rewrite IH. unfold visitDetail.
  by destruct (inWindow fromTime toTime d).
Qed.

Lemma visitModels_filter fromTime toTime flt ms st :
  fold_left (visitModel lookup fromTime toTime flt) ms st
  = fold_left (countEntry lookup)
      (List.filter (fun e => inWindow fromTime toTime (snd e))
         (flat_map
            (fun entry =>
               if passesFilter flt (fst entry)
               then map (pair (fst entry)) (usage.Details (snd entry))
               else []) ms)) st.
Proof.
  revert st. induction ms as [|[name m] ms IH]; intros st; [done|].
  cbn [fold_left flat_map fst snd].
  rewrite List.filter_app, fold_left_app, IH. f_equal.
  unfold visitModel. destruct (passesFilter flt name); [|done].
  apply visitDetails_filter.
Qed.

Lemma traverse_counting fromTime toTime flt snapshot :
  traverse lookup fromTime toTime flt snapshot
  = counting lookup (matching fromTime toTime flt snapshot).
Proof.
  unfold traverse, counting, matching, visited.
  generalize initial.
  induction (usage.APIs snapshot) as [|api apis IH]; intros st; [done|].
  cbn [fold_left flat_map].
  rewrite List.filter_app, fold_left_app, IH. f_equal.
  apply visitModels_filter.
Qed.

Lemma counting_snoc l e :
  counting lookup (l ++ [e]) = countEntry lookup (counting lookup l) e.
Proof. unfold counting. by rewrite fold_left_app. Qed.

End Traversal.

(** ** Accumulator maps *)

Section Maps.

Context `{Countable K} {V : Type}.

(** Creating the entry when it is missing and then updating it in place
    stores the update of the old entry, or of the fresh one. *)
Lemma create_then_alter (m : gmap K V) k v0 f :
  alter f k (match m !! k with Some _ => m | None => <[k:=v0]> m end)
  = <[k := f (default v0 (m !! k))]> m.
Proof.
  destruct (m !! k) as [v|] eqn:E; cbn.
  - apply map_eq. intros j. destruct (decide (k = j)) as [<-|Hne].
    + by rewrite lookup_alter_eq, lookup_insert_eq, E.
    + by rewrite lookup_alter_ne, lookup_insert_ne.
  - by rewrite alter_insert_eq.
Qed.

Lemma msum_empty (g : V -> Z) : msum g (∅ : gmap K V) = 0.
Proof. unfold msum. by rewrite map_to_list_empty. Qed.

Lemma msum_insert_fresh (g : V -> Z) (m : gmap K V) k x :
  m !! k = None -> msum g (<[k:=x]> m) = g x + msum g m.
Proof.
  intros Hk. unfold msum.
  rewrite (sumZ_Permutation _ (map g (map snd ((k, x) :: map_to_list m)))).
  - done.
  - apply Permutation_map, Permutation_map. by apply map_to_list_insert.
Qed.

Lemma msum_delete (g : V -> Z) (m : gmap K V) k v :
  m !! k = Some v -> msum g m = g v + msum g (delete k m).
Proof.
  intros Hk. unfold msum.
  rewrite (sumZ_Permutation _
             (map g (map snd ((k, v) :: map_to_list (delete k m))))).
  - done.
  - apply Permutation_map, Permutation_map. symmetry.
    by apply map_to_list_delete.
Qed.

Lemma msum_insert (g : V -> Z) (m : gmap K V) k x :
  msum g (<[k:=x]> m) = g x - from_option g 0 (m !! k) + msum g m.
Proof.
  destruct (m !! k) as [v|] eqn:E; cbn.
  - rewrite <- insert_delete_eq, msum_insert_fresh by apply lookup_delete_eq.
    rewrite (msum_delete g m k v E). lia.
  - rewrite msum_insert_fresh by done. lia.
Qed.

End Maps.

(** ** What the locals hold after counting a list of details *)

Section Counting.

Variable lookup : time.Location -> Z -> Z.

Lemma countModel_insert name tokens (m : gmap string ModelMetrics) :
  countModel name tokens m
  = <[name := bumpModel tokens
                (default (ModelMetrics.mk name 0 0) (m !! name))]> m.
Proof. apply create_then_alter. Qed.

Lemma countBucket_insert bucket tokens (m : gmap time.Time TimeseriesBucket) :
  countBucket lookup bucket tokens m
  = <[bucket :=
        bumpBucket tokens
          (default
             (TimeseriesBucket.mk (time.Format lookup bucket time.RFC3339) 0 0)
             (m !! bucket))]> m.
Proof. apply create_then_alter. Qed.

Lemma tokensOf_snoc l e :
  sumZ (tokensOf (l ++ [e]))
  = sumZ (tokensOf l) + usage.TotalTokens (usage.Tokens (snd e)).
Proof.
  unfold tokensOf. rewrite map_app, sumZ_app. cbn. lia.
Qed.

Lemma length_snoc {A} (l : list A) (e : A) :
  Z.of_nat (length (l ++ [e])) = Z.of_nat (length l) + 1.
Proof. rewrite length_app. cbn. lia. Qed.

Lemma counting_totals l :
  totalRequests (counting lookup l) = wrap64 (Z.of_nat (length l)) /\
  totalTokens (counting lookup l) = wrap64 (sumZ (tokensOf l)).
Proof.
  induction l as [|e l [IHr IHt]] using rev_ind; [done|].
  rewrite counting_snoc. unfold countEntry, countDetail. cbn.
  rewrite IHr, IHt, tokensOf_snoc, length_snoc.
  unfold add64. by rewrite !wrap64_add_l.
Qed.

(** The sums kept for a group of details, after one more detail. *)
Lemma group_grow (ds : list (string * usage.RequestDetail)) e :
  add64 (wrap64 (sumZ (tokensOf ds)))
    (usage.TotalTokens (usage.Tokens (snd e)))
  = wrap64 (sumZ (tokensOf (ds ++ [e]))) /\
  add64 (wrap64 (Z.of_nat (length ds))) 1
  = wrap64 (Z.of_nat (length (ds ++ [e]))).
Proof.
  rewrite tokensOf_snoc, length_snoc. unfold add64.
  by rewrite !wrap64_add_l.
Qed.

Lemma group_start (e : string * usage.RequestDetail) :
  add64 0 (usage.TotalTokens (usage.Tokens (snd e)))
  = wrap64 (sumZ (tokensOf [e])) /\
  add64 0 1 = wrap64 (Z.of_nat (length [e])).
Proof. exact (group_grow [] e). Qed.

Lemma counting_model l name :
  modelMetricsMap (counting lookup l) !! name = modelEntry name l.
Proof.
  induction l as [|e l IH] using rev_ind; [done|].
  rewrite counting_snoc. unfold countEntry, countDetail. cbn.
  rewrite countModel_insert. unfold modelEntry, ofModel in *.
  rewrite List.filter_app. cbn [List.filter].
  destruct (decide (fst e = name)) as [<-|Hne].
  - rewrite bool_decide_eq_true_2 by done.
    rewrite lookup_insert_eq, IH.
    destruct (List.filter _ l) as [|d ds].
    + destruct (group_start e) as [Ht Hr].
      unfold bumpModel.
      cbn [default from_option id ModelMetrics.Model ModelMetrics.Tokens
             ModelMetrics.Requests app].
      by rewrite Ht, Hr.
    + destruct (group_grow (d :: ds) e) as [Ht Hr].
      unfold bumpModel.
      cbn [default from_option id ModelMetrics.Model ModelMetrics.Tokens
             ModelMetrics.Requests app].
      by rewrite Ht, Hr.
  - rewrite bool_decide_eq_false_2 by done.
    rewrite lookup_insert_ne, IH, app_nil_r by done. done.
Qed.

Lemma counting_bucket l bucket :
  timeseriesMap (counting lookup l) !! bucket = bucketEntry lookup bucket l.
Proof.
  induction l as [|e l IH] using rev_ind; [done|].
  rewrite counting_snoc. unfold countEntry, countDetail. cbn.
  rewrite countBucket_insert. unfold bucketEntry, ofBucket in *.
  rewrite List.filter_app. cbn [List.filter].
  fold (bucketOf e).
  destruct (decide (bucketOf e = bucket)) as [<-|Hne].
  - rewrite bool_decide_eq_true_2 by done.
    rewrite lookup_insert_eq, IH.
    destruct (List.filter _ l) as [|d ds].
    + destruct (group_start e) as [Ht Hr].
      unfold bumpBucket.
      cbn [default from_option id TimeseriesBucket.BucketStart
             TimeseriesBucket.Tokens TimeseriesBucket.Requests app].
      by rewrite Ht, Hr.
    + destruct (group_grow (d :: ds) e) as [Ht Hr].
      unfold bumpBucket.
      cbn [default from_option id TimeseriesBucket.BucketStart
             TimeseriesBucket.Tokens TimeseriesBucket.Requests app].
      by rewrite Ht, Hr.
  - rewrite bool_decide_eq_false_2 by done.
    rewrite lookup_insert_ne, IH, app_nil_r by done. done.
Qed.

End Counting.

(** ** The entries of each accumulator map add up to the totals *)

Section Sums.

Variable lookup : time.Location -> Z -> Z.

Lemma msum_bump `{Countable K} {V : Type} (g : V -> Z) (m : gmap K V) k v0 f x :
  g v0 = 0 ->
  (forall v, g (f v) = add64 (g v) x) ->
  wrap64 (msum g (<[k := f (default v0 (m !! k))]> m))
  = add64 (wrap64 (msum g m)) x.
Proof.
  intros Hv0 Hf. rewrite msum_insert, Hf. unfold add64.
  rewrite wrap64_add_l.
  assert (from_option g 0 (m !! k) = g (default v0 (m !! k))) as ->.
  { destruct (m !! k); cbn; [done|]. by rewrite Hv0. }
  set (c := g (default v0 (m !! k))).
  replace (wrap64 (c + x) - c + msum g m)
    with (wrap64 (c + x) + (msum g m - c)) by lia.
  rewrite wrap64_add_l. apply (f_equal wrap64). lia.
Qed.

Lemma counting_sums l :
  let st := counting lookup l in
  wrap64 (msum ModelMetrics.Requests (modelMetricsMap st)) = totalRequests st /\
  wrap64 (msum ModelMetrics.Tokens (modelMetricsMap st)) = totalTokens st /\
  wrap64 (msum TimeseriesBucket.Requests (timeseriesMap st)) = totalRequests st /\
  wrap64 (msum TimeseriesBucket.Tokens (timeseriesMap st)) = totalTokens st.
Proof.
  induction l as [|e l IH] using rev_ind.
  - cbn. rewrite !msum_empty. done.
  - cbn zeta in *. destruct IH as (IH1 & IH2 & IH3 & IH4).
    rewrite counting_snoc. unfold countEntry, countDetail. cbn.
    rewrite countModel_insert, countBucket_insert.
    rewrite <- IH1 at 1. rewrite <- IH2 at 1.
    rewrite <- IH3. rewrite <- IH4.
    repeat split.
    + apply (msum_bump ModelMetrics.Requests); done.
    + apply (msum_bump ModelMetrics.Tokens); done.
    + apply (msum_bump TimeseriesBucket.Requests); done.
    + apply (msum_bump TimeseriesBucket.Tokens); done.
Qed.

(** *** Without overflow the sums are exact *)

Lemma msum_bump_exact `{Countable K} {V : Type} (g : V -> Z) (m : gmap K V)
    k v0 f x :
  g v0 = 0 ->
  (forall v, g (f v) = add64 (g v) x) ->
  is_int64 (g (default v0 (m !! k)) + x) ->
  msum g (<[k := f (default v0 (m !! k))]> m) = msum g m + x.
Proof.
  intros Hv0 Hf Hrange. rewrite msum_insert, Hf. unfold add64.
  rewrite wrap64_id by done.
  assert (from_option g 0 (m !! k) = g (default v0 (m !! k))) as ->.
  { destruct (m !! k); cbn; [done|]. by rewrite Hv0. }
  lia.
Qed.

Lemma group_bounds (p : string * usage.RequestDetail -> bool) l :
  Forall (fun e => 0 <= usage.TotalTokens (usage.Tokens (snd e))) l ->
  0 <= sumZ (tokensOf (List.filter p l)) <= sumZ (tokensOf l) /\
  Z.of_nat (length (List.filter p l)) <= Z.of_nat (length l).
Proof.
  induction 1 as [|e l He Hl IH]; [done|].
  cbn [List.filter]. destruct (p e).
  - change (0 <= usage.TotalTokens (usage.Tokens (snd e))
                 + sumZ (tokensOf (List.filter p l))
            <= usage.TotalTokens (usage.Tokens (snd e)) + sumZ (tokensOf l) /\
            Z.of_nat (S (length (List.filter p l)))
            <= Z.of_nat (S (length l))).
    lia.
  - change (0 <= sumZ (tokensOf (List.filter p l))
            <= usage.TotalTokens (usage.Tokens (snd e)) + sumZ (tokensOf l) /\
            Z.of_nat (length (List.filter p l)) <= Z.of_nat (S (length l))).
    lia.
Qed.

Lemma noOverflow_snoc l e :
  noOverflow (l ++ [e]) ->
  noOverflow l /\ 0 <= usage.TotalTokens (usage.Tokens (snd e)) /\
  sumZ (tokensOf l) + usage.TotalTokens (usage.Tokens (snd e)) < 2 ^ 63 /\
  Z.of_nat (length l) + 1 < 2 ^ 63.
Proof.
  unfold noOverflow. rewrite tokensOf_snoc, length_snoc.
  intros (Hall & Hsum & Hlen).
  apply Forall_app in Hall as [Hl He]. rewrite Forall_singleton in He.
  int64_consts. repeat split; try done; lia.
Qed.

(** The counters of a group's entry, or of the entry that would be created
    for it now, stay in range when its next detail is added. *)
Lemma current_in_range {V : Type} (p : string * usage.RequestDetail -> bool)
    (l : list (string * usage.RequestDetail)) (e : string * usage.RequestDetail)
    (fresh : V) (mk : Z -> Z -> V) (tokens requests : V -> Z) :
  Forall (fun e => 0 <= usage.TotalTokens (usage.Tokens (snd e))) l ->
  0 <= usage.TotalTokens (usage.Tokens (snd e)) ->
  sumZ (tokensOf l) + usage.TotalTokens (usage.Tokens (snd e)) < 2 ^ 63 ->
  Z.of_nat (length l) + 1 < 2 ^ 63 ->
  tokens fresh = 0 -> requests fresh = 0 ->
  (forall a b, tokens (mk a b) = a) -> (forall a b, requests (mk a b) = b) ->
  let cur :=
    default fresh
      match List.filter p l with
      | [] => None
      | ds => Some (mk (wrap64 (sumZ (tokensOf ds)))
                      (wrap64 (Z.of_nat (length ds))))
      end in
  is_int64 (tokens cur + usage.TotalTokens (usage.Tokens (snd e))) /\
  is_int64 (requests cur + 1).
Proof.
  intros Hnn He Hsum Hlen Ht0 Hr0 Ht Hr cur. subst cur.
  destruct (group_bounds p l Hnn) as [Hgt Hgl].
  unfold is_int64. int64_consts.
  destruct (List.filter p l) as [|d ds]; cbn [default from_option id].
  - rewrite Ht0, Hr0. lia.
  - rewrite Ht, Hr. rewrite !wrap64_id; unfold is_int64; int64_consts; lia.
Qed.

Lemma counting_sums_exact l :
  noOverflow l ->
  let st := counting lookup l in
  msum ModelMetrics.Requests (modelMetricsMap st) = Z.of_nat (length l) /\
  msum ModelMetrics.Tokens (modelMetricsMap st) = sumZ (tokensOf l) /\
  msum TimeseriesBucket.Requests (timeseriesMap st) = Z.of_nat (length l) /\
  msum TimeseriesBucket.Tokens (timeseriesMap st) = sumZ (tokensOf l).
Proof.
  induction l as [|e l IH] using rev_ind; intros Hno.
  - cbn. by rewrite !msum_empty.
  - apply noOverflow_snoc in Hno as (Hl & He & Hsum & Hlen).
    destruct (IH Hl) as (IH1 & IH2 & IH3 & IH4). clear IH.
    destruct Hl as (Hnn & _ & _).
    cbn zeta. rewrite counting_snoc. unfold countEntry, countDetail. cbn.
    rewrite countModel_insert, countBucket_insert.
    rewrite tokensOf_snoc, length_snoc.
    rewrite <- IH1 at 1. rewrite <- IH2 at 1. rewrite <- IH3. rewrite <- IH4.
    pose proof (counting_model lookup l (fst e)) as Hm.
    pose proof (counting_bucket lookup l (bucketOf e)) as Hb.
    unfold modelEntry, ofModel in Hm. unfold bucketEntry, ofBucket in Hb.
    fold (bucketOf e).
    destruct (current_in_range (fun x => bool_decide (fst x = fst e)) l e
                (ModelMetrics.mk (fst e) 0 0) (ModelMetrics.mk (fst e))
                ModelMetrics.Tokens ModelMetrics.Requests Hnn He Hsum Hlen
                eq_refl eq_refl (fun _ _ => eq_refl) (fun _ _ => eq_refl))
      as [HmT HmR].
    destruct (current_in_range
                (fun x => bool_decide (bucketOf x = bucketOf e)) l e
                (TimeseriesBucket.mk
                   (time.Format lookup (bucketOf e) time.RFC3339) 0 0)
                (TimeseriesBucket.mk
                   (time.Format lookup (bucketOf e) time.RFC3339))
                TimeseriesBucket.Tokens TimeseriesBucket.Requests
                Hnn He Hsum Hlen
                eq_refl eq_refl (fun _ _ => eq_refl) (fun _ _ => eq_refl))
      as [HbT HbR].
    repeat split.
    + apply (msum_bump_exact ModelMetrics.Requests); [done..|].
      rewrite Hm. exact HmR.
    + apply (msum_bump_exact ModelMetrics.Tokens); [done..|].
      rewrite Hm. exact HmT.
    + apply (msum_bump_exact TimeseriesBucket.Requests); [done..|].
      rewrite Hb. exact HbR.
    + apply (msum_bump_exact TimeseriesBucket.Tokens); [done..|].
      rewrite Hb. exact HbT.
Qed.

End Sums.

(** ** From the locals to the response *)

Section Response.

Variable lookup : time.Location -> Z -> Z.

Lemma In_values `{Countable K} {V : Type} (m : gmap K V) x :
  In x (map snd (map_to_list m)) <-> exists k, m !! k = Some x.
Proof.
  rewrite in_map_iff. split.
  - intros [[k v] [<- Hin]]. exists k.
    by apply elem_of_map_to_list, list_elem_of_In.
  - intros [k Hk]. exists (k, x). split; [done|].
    by apply list_elem_of_In, elem_of_map_to_list.
Qed.

Lemma In_Slice {A} (less : A -> A -> bool) l x :
  In x (sort.Slice less l) <-> In x l.
Proof.
  split; apply Permutation_in;
    [|symmetry]; apply Slice_Permutation.
Qed.

Lemma sumZ_Slice {A} (less : A -> A -> bool) (g : A -> Z) l :
  sumZ (map g (sort.Slice less l)) = sumZ (map g l).
Proof. apply sumZ_Permutation, Permutation_map, Slice_Permutation. Qed.

Lemma sum64_Slice {A} (less : A -> A -> bool) (g : A -> Z) l :
  sum64 (map g (sort.Slice less l)) = wrap64 (sumZ (map g l)).
Proof.
  rewrite sum64_wrap. apply (f_equal wrap64), sumZ_Permutation.
  apply Permutation_map, Slice_Permutation.
Qed.

(** The keys of the values of a map whose values carry their key. *)
Lemma NoDup_keys_of_values `{Countable K} {V : Type} (m : gmap K V)
    (key : V -> K) :
  (forall k v, m !! k = Some v -> key v = k) ->
  NoDup (map key (map snd (map_to_list m))).
Proof.
  intros Hkey.
  assert (map key (map snd (map_to_list m)) = map fst (map_to_list m)) as ->.
  { rewrite map_map. apply map_ext_in. intros [k v] Hin. cbn.
    by apply Hkey, elem_of_map_to_list, list_elem_of_In. }
  apply NoDup_fst_map_to_list.
Qed.

End Response.

(** ** Facts about [time] *)

Lemma Add_abs_ns t d :
  time.wf t ->
  time.wf (time.Add t d) /\ time.abs_ns (time.Add t d) = time.abs_ns t + d.
Proof.
  unfold time.wf, time.abs_ns, time.Add. intros Hwf.
  pose proof (Z.quot_rem' d 1000000000) as Hd.
  assert (- 1000000000 < Z.rem d 1000000000 < 1000000000) as Hr.
  { pose proof (Z.rem_bound_abs d 1000000000 ltac:(lia)). lia. }
  destruct (Z.geb_spec (time.nsec t + Z.rem d 1000000000) 1000000000);
    [cbn; lia|].
  destruct (Z.ltb_spec (time.nsec t + Z.rem d 1000000000) 0); cbn; lia.
Qed.

Lemma Add_loc t d : time.loc (time.Add t d) = time.loc t.
Proof.
  unfold time.Add.
  destruct (_ >=? _); [done|]. by destruct (_ <? _).
Qed.

Lemma Add_mono t d :
  time.mono (time.Add t d) = option_map (fun m => m + d) (time.mono t).
Proof.
  unfold time.Add.
  destruct (_ >=? _); [done|]. by destruct (_ <? _).
Qed.

Lemma wall_before t u :
  time.wf t -> time.wf u ->
  (time.sec t <? time.sec u) ||
    ((time.sec t =? time.sec u) && (time.nsec t <? time.nsec u))
  = (time.abs_ns t <? time.abs_ns u).
Proof.
  unfold time.wf, time.abs_ns. intros Ht Hu.
  destruct (Z.ltb_spec (time.sec t) (time.sec u)),
    (Z.eqb_spec (time.sec t) (time.sec u)),
    (Z.ltb_spec (time.nsec t) (time.nsec u)),
    (Z.ltb_spec (time.sec t * 1000000000 + time.nsec t)
       (time.sec u * 1000000000 + time.nsec u)); cbn; lia.
Qed.

Lemma wall_after t u :
  time.wf t -> time.wf u ->
  (time.sec t >? time.sec u) ||
    ((time.sec t =? time.sec u) && (time.nsec t >? time.nsec u))
  = (time.abs_ns t >? time.abs_ns u).
Proof.
  unfold time.wf, time.abs_ns. intros Ht Hu.
  rewrite !Z.gtb_ltb.
  destruct (Z.ltb_spec (time.sec u) (time.sec t)),
    (Z.eqb_spec (time.sec t) (time.sec u)),
    (Z.ltb_spec (time.nsec u) (time.nsec t)),
    (Z.ltb_spec (time.sec u * 1000000000 + time.nsec u)
       (time.sec t * 1000000000 + time.nsec t)); cbn; lia.
Qed.

(** [Truncate(time.Hour)]: the whole hours of absolute time elapsed since
    the zero instant, in the same location, without monotonic reading. *)
Lemma Truncate_Hour t :
  time.wf t ->
  let b := time.Truncate t time.Hour in
  time.mono b = None /\ time.loc b = time.loc t /\
  time.nsec b = 0 /\ time.sec b mod 3600 = 0 /\
  time.sec b <= time.sec t < time.sec b + 3600.
Proof.
  intros Hwf b. subst b. unfold time.Truncate.
  change (time.Hour <=? 0) with false. cbn iota.
  set (s := time.stripMono t).
  assert (time.wf s) as Hs by done.
  destruct (Add_abs_ns s (- (time.abs_ns s mod time.Hour)) Hs) as [Hwf' Habs].
  rewrite Add_mono, Add_loc.
  set (b := time.Add s _) in *.
  change (time.abs_ns s) with (time.abs_ns t) in *.
  change (time.loc s) with (time.loc t).
  change (time.mono s) with (@None Z).
  change time.Hour with 3600000000000 in *.
  pose proof (Z.div_mod (time.abs_ns t) 3600000000000 ltac:(lia)) as Hdm.
  pose proof (Z.mod_pos_bound (time.abs_ns t) 3600000000000 ltac:(lia)) as Hm.
  unfold time.wf, time.abs_ns in *.
  set (q := (time.sec t * 1000000000 + time.nsec t) / 3600000000000) in *.
  assert (time.sec b * 1000000000 + time.nsec b = 3600000000000 * q) as Hb
    by lia.
  assert (time.nsec b = 0) as Hn.
  { assert (time.nsec b = 1000000000 * (3600 * q - time.sec b)) by lia. lia. }
  assert (time.sec b = 3600 * q) as Hq by lia.
  repeat split; try done; try lia.
  rewrite Hq, Z.mul_comm. apply Z.mod_mul. lia.
Qed.



Lemma Z_ltb_ext a b c d : (a < b <-> c < d) -> (a <? b) = (c <? d).
Proof.
  intros H. destruct (Z.ltb_spec a b), (Z.ltb_spec c d); [done|lia|lia|done].
Qed.

(** Without a monotonic reading on either side, [Before] and [After]
    compare the wall clock; with one on both sides, the monotonic clock. *)
Lemma Before_wall t u :
  time.mono u = None -> time.wf t -> time.wf u ->
  time.Before t u = (time.abs_ns t <? time.abs_ns u).
Proof.
  unfold time.Before. intros -> Ht Hu.
  destruct (time.mono t); by apply wall_before.
Qed.

Lemma Before_wall_l t u :
  time.mono t = None -> time.wf t -> time.wf u ->
  time.Before t u = (time.abs_ns t <? time.abs_ns u).
Proof. unfold time.Before. intros -> Ht Hu. by apply wall_before. Qed.

Lemma Before_mono t u mt mu :
  time.mono t = Some mt -> time.mono u = Some mu ->
  time.Before t u = (mt <? mu).
Proof. unfold time.Before. by intros -> ->. Qed.

Lemma After_wall t u :
  time.mono u = None -> time.wf t -> time.wf u ->
  time.After t u = (time.abs_ns t >? time.abs_ns u).
Proof.
  unfold time.After. intros -> Ht Hu.
  destruct (time.mono t); by apply wall_after.
Qed.

Lemma After_wall_l t u :
  time.mono t = None -> time.wf t -> time.wf u ->
  time.After t u = (time.abs_ns t >? time.abs_ns u).
Proof. unfold time.After. intros -> Ht Hu. by apply wall_after. Qed.

Lemma After_mono t u mt mu :
  time.mono t = Some mt -> time.mono u = Some mu ->
  time.After t u = (mt >? mu).
Proof. unfold time.After. by intros -> ->. Qed.

Lemma inWindow_true fromTime toTime d :
  inWindow fromTime toTime d = true <->
  (time.IsZero fromTime = true \/
   time.Before (usage.Timestamp d) fromTime = false) /\
  (time.IsZero toTime = true \/
   time.After (usage.Timestamp d) toTime = false).
Proof.
  unfold inWindow.
  destruct (time.IsZero fromTime), (time.IsZero toTime),
    (time.Before (usage.Timestamp d) fromTime),
    (time.After (usage.Timestamp d) toTime); cbn; intuition congruence.
Qed.


Lemma NoDup_key_inj {A K} (key : A -> K) (l : list A) x y :
  NoDup (map key l) -> x ∈ l -> y ∈ l -> key x = key y -> x = y.
Proof.
  induction l as [|z l IH]; [by intros _ ?%elem_of_nil|].
  cbn [map]. intros [Hz Hnd]%NoDup_cons Hx Hy Hk.
  apply elem_of_cons in Hx as [->|Hx]; apply elem_of_cons in Hy as [->|Hy].
  - done.
  - destruct Hz. rewrite Hk. by apply list_elem_of_fmap_2.
  - destruct Hz. rewrite <- Hk. by apply list_elem_of_fmap_2.
  - by apply IH.
Qed.

(** In a list without repeated keys, the elements with the key of a member
    are that member alone. *)
Lemma filter_unique_key {A} `{EqDecision K} (key : A -> K) (l : list A) x :
  NoDup (map key l) -> In x l ->
  List.filter (fun y => bool_decide (key y = key x)) l = [x].
Proof.
  induction l as [|y l IH]; [done|].
  cbn [map List.filter]. intros [Hy Hnd]%NoDup_cons [->|Hin].
  - rewrite bool_decide_eq_true_2 by done. f_equal.
    clear IH Hnd. induction l as [|z l IH]; [done|].
    cbn [map List.filter] in *. apply not_elem_of_cons in Hy as [Hne Hy].
    rewrite bool_decide_eq_false_2 by done. by apply IH.
  - rewrite bool_decide_eq_false_2, IH; [done..|].
    intros Heq. apply Hy. rewrite Heq. apply list_elem_of_In.
    by apply in_map.
Qed.

(** ** The report of a call *)

Section Report.

Variable Parse : time.Layout -> string -> option time.Time.
Variable lookup : time.Location -> Z -> Z.

Lemma Returns_report now snapshot q resp :
  Returns Parse lookup now snapshot q resp <->
  exists fromTime toTime,
    window Parse now q = inr (fromTime, toTime) /\
    resp = report lookup fromTime toTime (modelFilter q) snapshot.
Proof.
  unfold Returns, GetMetrics. split.
  - destruct (window Parse now q) as [msg|[f t]]; intros Heq;
      inversion Heq; subst. by exists f, t.
  - intros (f & t & -> & ->). done.
Qed.

Lemma window_Returns now snapshot q fromTime toTime :
  window Parse now q = inr (fromTime, toTime) ->
  Returns Parse lookup now snapshot q
    (report lookup fromTime toTime (modelFilter q) snapshot).
Proof. intros Hw. apply Returns_report. by exists fromTime, toTime. Qed.

(** The report aggregates the matching details. *)
Lemma report_Aggregates fromTime toTime flt snapshot :
  Aggregates lookup (matching fromTime toTime flt snapshot)
    (report lookup fromTime toTime flt snapshot).
Proof.
  unfold report, respond, Aggregates. rewrite traverse_counting.
  set (l := matching fromTime toTime flt snapshot).
  cbn [Totals ByModel Timeseries].
  destruct (counting_totals lookup l) as [-> ->].
  split; [done|]. split; intros x.
  - rewrite In_Slice, In_values.
    by setoid_rewrite counting_model.
  - rewrite In_Slice, In_values.
    by setoid_rewrite counting_bucket.
Qed.

(** The report only depends on which details the window lets through. *)
Lemma report_ext fromTime toTime fromTime' toTime' flt snapshot :
  (forall name d, In (name, d) (visited flt snapshot) ->
                  inWindow fromTime toTime d = inWindow fromTime' toTime' d) ->
  report lookup fromTime toTime flt snapshot
  = report lookup fromTime' toTime' flt snapshot.
Proof.
  intros Hext. unfold report. rewrite !traverse_counting. do 2 f_equal.
  unfold matching. apply filter_ext_in. intros [name d] Hin.
  by apply (Hext name).
Qed.

Lemma In_matching fromTime toTime flt snapshot name d :
  In (name, d) (matching fromTime toTime flt snapshot) <->
  In (name, d) (visited flt snapshot) /\ inWindow fromTime toTime d = true.
Proof. unfold matching. by rewrite filter_In. Qed.

Lemma In_visited flt snapshot name d :
  In (name, d) (visited flt snapshot) <->
  exists api ms,
    In api (usage.APIs snapshot) /\ In (name, ms) (usage.Models (snd api)) /\
    In d (usage.Details ms) /\ passesFilter flt name = true.
Proof.
  unfold visited. rewrite in_flat_map. split.
  - intros (api & Hapi & Hin). apply in_flat_map in Hin as ([n ms] & Hms & Hin).
    cbn in Hin. destruct (passesFilter flt n) eqn:Hp; [|done].
    apply in_map_iff in Hin as (d' & [= -> ->] & Hd).
    by exists api, ms.
  - intros (api & ms & Hapi & Hms & Hd & Hp).
    exists api. split; [done|]. apply in_flat_map. exists (name, ms).
    split; [done|]. cbn. rewrite Hp. by apply in_map.
Qed.

Lemma visited_allDetails flt snapshot name d :
  In (name, d) (visited flt snapshot) -> In d (allDetails snapshot).
Proof.
  rewrite In_visited. intros (api & ms & Hapi & Hms & Hd & _).
  unfold allDetails. apply in_flat_map. exists api. split; [done|].
  apply in_flat_map. by exists (name, ms).
Qed.

(** *** The order of [range] over the snapshot does not matter *)

Lemma filter_Permutation_bool {A} (p : A -> bool) (l1 l2 : list A) :
  Permutation l1 l2 -> Permutation (List.filter p l1) (List.filter p l2).
Proof.
  induction 1 as [|x l l' _ IH|x y l|l l' l'' _ IH1 _ IH2]; cbn.
  - done.
  - destruct (p x); [by constructor|done].
  - destruct (p x), (p y); try done. apply perm_swap.
  - by etrans.
Qed.

Lemma group_Permutation {V : Type} (p : string * usage.RequestDetail -> bool)
    (mk : Z -> Z -> V) (l1 l2 : list (string * usage.RequestDetail)) :
  Permutation l1 l2 ->
  match List.filter p l1 with
  | [] => None
  | ds => Some (mk (wrap64 (sumZ (tokensOf ds))) (wrap64 (Z.of_nat (length ds))))
  end
  = match List.filter p l2 with
    | [] => None
    | ds =>
        Some (mk (wrap64 (sumZ (tokensOf ds))) (wrap64 (Z.of_nat (length ds))))
    end.
Proof.
  intros Hp%(filter_Permutation_bool p).
  destruct (List.filter p l1) as [|d1 ds1] eqn:E1.
  - apply Permutation_nil in Hp. by rewrite Hp.
  - destruct (List.filter p l2) as [|d2 ds2] eqn:E2.
    + symmetry in Hp. by apply Permutation_nil in Hp.
    + f_equal. f_equal.
      * apply (f_equal wrap64), sumZ_Permutation. unfold tokensOf.
        by apply Permutation_map.
      * do 2 f_equal. by apply Permutation_length.
Qed.

Lemma counting_Permutation l1 l2 :
  Permutation l1 l2 -> counting lookup l1 = counting lookup l2.
Proof.
  intros Hp.
  destruct (counting_totals lookup l1) as [Hr1 Ht1].
  destruct (counting_totals lookup l2) as [Hr2 Ht2].
  assert (modelMetricsMap (counting lookup l1)
          = modelMetricsMap (counting lookup l2)) as Hm.
  { apply map_eq. intros name. rewrite !counting_model.
    by apply (group_Permutation _ (ModelMetrics.mk name)). }
  assert (timeseriesMap (counting lookup l1)
          = timeseriesMap (counting lookup l2)) as Hb.
  { apply map_eq. intros bucket. rewrite !counting_bucket.
    by apply (group_Permutation _
                (TimeseriesBucket.mk
                   (time.Format lookup bucket time.RFC3339))). }
  destruct (counting lookup l1), (counting lookup l2). cbn in *.
  rewrite Hm, Hb, Hr1, Hr2, Ht1, Ht2. do 2 f_equal.
  - apply sumZ_Permutation. unfold tokensOf. by apply Permutation_map.
  - f_equal. by apply Permutation_length.
Qed.

(** Whatever order the details are reached in, the report is the same; in
    particular whatever order [range] yields the providers in. *)
Lemma report_visit_order fromTime toTime flt s1 s2 :
  Permutation (visited flt s1) (visited flt s2) ->
  report lookup fromTime toTime flt s1 = report lookup fromTime toTime flt s2.
Proof.
  intros Hp. unfold report. rewrite !traverse_counting. f_equal.
  apply counting_Permutation. unfold matching.
  by apply filter_Permutation_bool.
Qed.

Lemma report_range_order fromTime toTime flt s1 s2 :
  Permutation (usage.APIs s1) (usage.APIs s2) ->
  report lookup fromTime toTime flt s1 = report lookup fromTime toTime flt s2.
Proof.
  intros Hp. apply report_visit_order. unfold visited.
  by apply Permutation_flat_map.
Qed.

(** [by_model]: no name twice, and the names strictly ascending. *)
Lemma by_model_NoDup fromTime toTime flt snapshot :
  NoDup (map ModelMetrics.Model
           (ByModel (report lookup fromTime toTime flt snapshot))).
Proof.
  unfold report, respond. cbn [ByModel].
  rewrite (Permutation_map ModelMetrics.Model (Slice_Permutation _ _)).
  apply NoDup_keys_of_values. intros k v.
  rewrite traverse_counting, counting_model. unfold modelEntry.
  destruct (ofModel k _); [done|]. by intros [= <-].
Qed.

Lemma by_model_strictly_ascending fromTime toTime flt snapshot :
  StronglySorted (fun a b => String.ltb a b = true)
    (map ModelMetrics.Model
       (ByModel (report lookup fromTime toTime flt snapshot))).
Proof.
  apply ascending_NoDup_strict.
  - apply Slice_by_key_ascending.
  - apply by_model_NoDup.
Qed.

(** [by_model] does not depend on the order in which [range] yields the
    entries of [modelMetricsMap], nor on what [sort.Slice] does beyond its
    contract: any arrangement of the entries in which no name is below an
    earlier one is this one. *)
Lemma by_model_determined fromTime toTime flt snapshot (l : list ModelMetrics) :
  Permutation l
    (map snd
       (map_to_list
          (modelMetricsMap (traverse lookup fromTime toTime flt snapshot)))) ->
  Sorted (fun a b => String.ltb (ModelMetrics.Model b) (ModelMetrics.Model a)
                     = false) l ->
  l = ByModel (report lookup fromTime toTime flt snapshot).
Proof.
  intros Hperm Hsorted.
  pose proof (by_model_NoDup fromTime toTime flt snapshot) as Hnd.
  assert (Permutation l (ByModel (report lookup fromTime toTime flt snapshot)))
    as Hl by (rewrite Hperm; symmetry; apply Slice_Permutation).
  assert (Transitive (fun a b : ModelMetrics =>
                        String.ltb (ModelMetrics.Model b) (ModelMetrics.Model a)
                        = false)) as Htrans.
  { intros a b c Hab Hbc. apply ltb_false_le in Hab, Hbc. apply ltb_false_le.
    by etrans. }
  apply (Sorted_unique_strong
           (fun a b : ModelMetrics =>
              String.ltb (ModelMetrics.Model b) (ModelMetrics.Model a) = false)
           l (ByModel (report lookup fromTime toTime flt snapshot)));
    [| done | | done].
  - intros x1 x2 Hx1 Hx2 H12 H21. rewrite Hl in Hx1.
    apply ltb_false_le in H12, H21.
    eapply (NoDup_key_inj ModelMetrics.Model); [done..|].
    by apply (anti_symm String.le).
  - apply (Slice_Sorted (fun a b => String.ltb (ModelMetrics.Model a)
                                      (ModelMetrics.Model b))).
    intros a b. apply ltb_asym.
Qed.

(** [timeseries]: no [bucket_start] is below an earlier one. *)
Lemma timeseries_ascending fromTime toTime flt snapshot :
  StronglySorted (fun a b => String.ltb b a = false)
    (map TimeseriesBucket.BucketStart
       (Timeseries (report lookup fromTime toTime flt snapshot))).
Proof. apply Slice_by_key_ascending. Qed.

End Report.

(** * The claims *)

Section Claims.

Variable Parse : time.Layout -> string -> option time.Time.
Variable lookup : time.Location -> Z -> Z.

(** C1 (sum consistency).  Whenever a call answers with a report, the
    requests of the [by_model] entries add up to [totals.requests], so do
    the requests of the [timeseries] entries, and the tokens of either
    sequence add up to [totals.tokens]: as sums of [int64] fields, the way a
    Go loop over the slice computes them, and also as sums of integers
    when the counted details do not overflow an [int64]. *)
Theorem sum_consistency now snapshot q resp :
  Returns Parse lookup now snapshot q resp ->
  (sum64 (map ModelMetrics.Requests (ByModel resp))
   = TotalsMetrics.Requests (Totals resp) /\
   sum64 (map TimeseriesBucket.Requests (Timeseries resp))
   = TotalsMetrics.Requests (Totals resp) /\
   sum64 (map ModelMetrics.Tokens (ByModel resp))
   = TotalsMetrics.Tokens (Totals resp) /\
   sum64 (map TimeseriesBucket.Tokens (Timeseries resp))
   = TotalsMetrics.Tokens (Totals resp)) /\
  exists fromTime toTime,
    window Parse now q = inr (fromTime, toTime) /\
    (noOverflow (matching fromTime toTime (modelFilter q) snapshot) ->
     sumZ (map ModelMetrics.Requests (ByModel resp))
     = TotalsMetrics.Requests (Totals resp) /\
     sumZ (map TimeseriesBucket.Requests (Timeseries resp))
     = TotalsMetrics.Requests (Totals resp) /\
     sumZ (map ModelMetrics.Tokens (ByModel resp))
     = TotalsMetrics.Tokens (Totals resp) /\
     sumZ (map TimeseriesBucket.Tokens (Timeseries resp))
     = TotalsMetrics.Tokens (Totals resp)).
Proof.
  intros Hret. apply Returns_report in Hret as (f & t & Hw & ->).
  unfold report, respond. cbn [Totals ByModel Timeseries
    TotalsMetrics.Requests TotalsMetrics.Tokens].
  rewrite traverse_counting.
  set (l := matching f t (modelFilter q) snapshot).
  split.
  - rewrite !sum64_Slice.
    destruct (counting_sums lookup l) as (H1 & H2 & H3 & H4).
    by rewrite <- H1 at 1; rewrite <- H3 at 1; rewrite <- H2 at 1;
      rewrite <- H4 at 1.
  - exists f, t. split; [done|]. fold l. intros Hno.
    rewrite !sumZ_Slice.
    destruct (counting_sums_exact lookup l Hno) as (H1 & H2 & H3 & H4).
    destruct (counting_totals lookup l) as [Hr Ht].
    destruct Hno as (Hnn & Hsum & Hlen).
    destruct (group_bounds (fun _ => true) l Hnn) as [Hpos _].
    rewrite wrap64_id in Hr, Ht
      by (unfold is_int64; int64_consts; lia).
    unfold msum in H1, H2, H3, H4. by rewrite H1, H2, H3, H4, Hr, Ht.
Qed.


(** C3 (hour buckets), as the code has it.  In a call that answers with a
    report, every matching detail with a well-formed timestamp is counted
    in the [timeseries] entry of its timestamp truncated to a whole number
    of hours of absolute time since the zero instant: the bucket keeps the
    location, has no monotonic reading and no nanoseconds, starts on a
    multiple of 3600 seconds at most an hour before the timestamp, and its
    [bucket_start] is the bucket in the layout the bounds are parsed with.
    On the clock of the timestamp's location its minute and second are
    zero when the zone offset in effect is a whole number of hours. *)
Theorem hour_bucket now snapshot q resp :
  Returns Parse lookup now snapshot q resp ->
  exists fromTime toTime,
    window Parse now q = inr (fromTime, toTime) /\
    forall name d,
      In (name, d) (matching fromTime toTime (modelFilter q) snapshot) ->
      time.wf (usage.Timestamp d) ->
      let bucket := time.Truncate (usage.Timestamp d) time.Hour in
      time.mono bucket = None /\
      time.loc bucket = time.loc (usage.Timestamp d) /\
      time.nsec bucket = 0 /\
      time.sec bucket mod 3600 = 0 /\
      time.sec bucket <= time.sec (usage.Timestamp d) < time.sec bucket + 3600 /\
      (time.offset lookup bucket mod 3600 = 0 ->
       time.MinuteOf lookup bucket = 0 /\ time.SecondOf lookup bucket = 0) /\
      exists x,
        In x (Timeseries resp) /\
        bucketEntry lookup bucket
          (matching fromTime toTime (modelFilter q) snapshot) = Some x /\
        TimeseriesBucket.BucketStart x
        = time.Format lookup bucket time.RFC3339.
Proof.
  intros Hret. apply Returns_report in Hret as (f & t & Hw & ->).
  exists f, t. split; [done|]. intros name d Hin Hwf bucket.
  destruct (Truncate_Hour _ Hwf) as (Hm & Hl & Hn & Hs & Hle).
  fold bucket in Hm, Hl, Hn, Hs, Hle.
  do 5 (split; [done|]). split.
  - intros Hoff. unfold time.MinuteOf, time.SecondOf, time.locabs.
    assert ((time.sec bucket + time.offset lookup bucket) mod 3600 = 0) as H0.
    { rewrite Z.add_mod, Hs, Hoff by lia. done. }
    rewrite H0. split; [done|].
    apply Z.mod_divide in H0 as [k Hk]; [|lia]. rewrite Hk.
    replace (k * 3600) with (k * 60 * 60) by lia. apply Z.mod_mul. lia.
  - destruct (report_Aggregates lookup f t (modelFilter q) snapshot)
      as (_ & _ & Hts).
    assert (exists x,
              bucketEntry lookup bucket
                (matching f t (modelFilter q) snapshot) = Some x /\
              TimeseriesBucket.BucketStart x
              = time.Format lookup bucket time.RFC3339) as (x & Hx & Hbs).
    { unfold bucketEntry.
      destruct (ofBucket bucket _) as [|e ds] eqn:E.
      - assert (In (name, d)
                  (ofBucket bucket (matching f t (modelFilter q) snapshot)))
          as Hd.
        { apply filter_In. split; [done|]. by apply bool_decide_eq_true_2. }
        rewrite E in Hd. destruct Hd.
      - by eexists. }
    exists x. split; [|done]. apply Hts. by exists bucket.
Qed.

(** C4 (malformed bounds).  A supplied [from] that does not parse makes
    the call answer 400 with the message about [from], and a supplied [to]
    that does not parse, when [from] is absent or parses, makes it answer
    400 with the message about [to] (when neither parses the message is
    the one about [from], which is checked first).  In every such case
    the 400 response is all the handler does: it has not taken the
    snapshot and writes no report. *)
Theorem malformed_bound now snapshot q :
  (isEmpty (fromStr q) = false ->
   Parse time.RFC3339 (fromStr q) = None ->
   GetMetrics Parse lookup now snapshot q
   = [JSON http.StatusBadRequest
        (ErrorBody "invalid 'from' timestamp format")]) /\
  (isEmpty (toStr q) = false ->
   Parse time.RFC3339 (toStr q) = None ->
   isEmpty (fromStr q) = true \/ is_Some (Parse time.RFC3339 (fromStr q)) ->
   GetMetrics Parse lookup now snapshot q
   = [JSON http.StatusBadRequest
        (ErrorBody "invalid 'to' timestamp format")]) /\
  (isEmpty (toStr q) = false ->
   Parse time.RFC3339 (toStr q) = None ->
   exists msg,
     GetMetrics Parse lookup now snapshot q
     = [JSON http.StatusBadRequest (ErrorBody msg)]).
Proof.
  unfold GetMetrics, window, parseBound. split; [|split].
  - intros -> ->. done.
  - intros -> -> [->|[f ->]]; cbn; [done|].
    by destruct (isEmpty (fromStr q)).
  - intros -> ->. rewrite andb_false_r.
    destruct (isEmpty (fromStr q)); cbn; [by eexists|].
    destruct (Parse time.RFC3339 (fromStr q)); by eexists.
Qed.

(** Comparing a detail with a bound by the wall or by the monotonic clock
    gives the same answer when the two clocks agree. *)
Lemma window_by_either_clock now lo hi d :
  time.wf now -> time.wf (usage.Timestamp d) ->
  clocksAgree now (usage.Timestamp d) ->
  time.mono lo = None -> time.mono hi = None ->
  sameInstant lo (time.Add now (-24 * time.Hour)) -> sameInstant hi now ->
  inWindow (time.Add now (-24 * time.Hour)) now d = inWindow lo hi d.
Proof.
  intros Hnow Hd Hagree Hlo Hhi [Hls Hln] [Hhs Hhn].
  destruct (Add_abs_ns now (-24 * time.Hour) Hnow) as [Hwf' Habs].
  assert (time.wf lo) as Hwlo by (unfold time.wf; by rewrite Hln).
  assert (time.wf hi) as Hwhi by (unfold time.wf; by rewrite Hhn).
  assert (time.abs_ns lo = time.abs_ns now + -24 * time.Hour) as Halo.
  { rewrite <- Habs. unfold time.abs_ns. by rewrite Hls, Hln. }
  assert (time.abs_ns hi = time.abs_ns now) as Hahi.
  { unfold time.abs_ns. by rewrite Hhs, Hhn. }
  assert (time.IsZero lo = time.IsZero (time.Add now (-24 * time.Hour))) as Hz1.
  { unfold time.IsZero. by rewrite Hls, Hln. }
  assert (time.IsZero hi = time.IsZero now) as Hz2.
  { unfold time.IsZero. by rewrite Hhs, Hhn. }
  assert (time.Before (usage.Timestamp d) (time.Add now (-24 * time.Hour))
          = time.Before (usage.Timestamp d) lo) as Hb.
  { rewrite (Before_wall _ lo) by done.
    unfold clocksAgree in Hagree.
    destruct (time.mono (usage.Timestamp d)) as [mt|] eqn:Emt,
      (time.mono now) as [mn|] eqn:Emn.
    - rewrite (Before_mono _ _ mt (mn + -24 * time.Hour));
        [|done|by rewrite Add_mono, Emn].
      apply Z_ltb_ext. lia.
    - rewrite Before_wall by (done || by rewrite Add_mono, Emn).
      by rewrite Habs, Halo.
    - rewrite Before_wall_l by done. by rewrite Habs, Halo.
    - rewrite Before_wall_l by done. by rewrite Habs, Halo. }
  assert (time.After (usage.Timestamp d) now
          = time.After (usage.Timestamp d) hi) as Ha.
  { rewrite (After_wall _ hi) by done.
    unfold clocksAgree in Hagree.
    destruct (time.mono (usage.Timestamp d)) as [mt|] eqn:Emt,
      (time.mono now) as [mn|] eqn:Emn.
    - rewrite (After_mono _ _ mt mn) by done.
      rewrite !Z.gtb_ltb. apply Z_ltb_ext. lia.
    - rewrite After_wall by done. by rewrite Hahi.
    - rewrite After_wall_l by done. by rewrite Hahi.
    - rewrite After_wall_l by done. by rewrite Hahi. }
  unfold inWindow. by rewrite Hz1, Hz2, Hb, Ha.
Qed.

(** C5 (default window), as the code has it.  A call without [from] and
    [to] does what a call does whose [from] and [to] parse to the wall
    clock readings of [now - 24h] and [now], provided the wall clock and
    the monotonic clock agree on the time between each detail and [now]:
    the first call compares a detail that has a monotonic reading with the
    bounds on the monotonic clock, the second on the wall clock. *)
Theorem default_window now snapshot flt fromS toS lo hi :
  isEmpty fromS = false -> isEmpty toS = false ->
  Parse time.RFC3339 fromS = Some lo -> Parse time.RFC3339 toS = Some hi ->
  time.mono lo = None -> time.mono hi = None ->
  sameInstant lo (time.Add now (-24 * time.Hour)) -> sameInstant hi now ->
  time.wf now ->
  Forall (fun d => time.wf (usage.Timestamp d) /\
                   clocksAgree now (usage.Timestamp d))
    (allDetails snapshot) ->
  GetMetrics Parse lookup now snapshot (mkQuery EmptyString EmptyString flt)
  = GetMetrics Parse lookup now snapshot (mkQuery fromS toS flt).
Proof.
  intros Hf Ht Hpf Hpt Hmlo Hmhi Hlo Hhi Hnow Hall.
  unfold GetMetrics, window, parseBound. cbn [fromStr toStr modelFilter].
  rewrite Hf, Ht, Hpf, Hpt. cbn.
  rewrite (report_ext lookup _ _ lo hi); [done|].
  intros name d Hin. apply visited_allDetails in Hin.
  rewrite Forall_forall in Hall.
  destruct (Hall d) as [Hwd Hagree]; [by apply list_elem_of_In|].
  by apply window_by_either_clock.
Qed.




Lemma filter_all {A} (p : A -> bool) (l : list A) :
  (forall x, In x l -> p x = true) -> List.filter p l = l.
Proof.
  induction l as [|x l IH]; [done|]. intros Hall. cbn [List.filter].
  rewrite (Hall x) by (by left). f_equal. apply IH.
  intros y Hy. apply Hall. by right.
Qed.

(** With a lower bound at the zero instant only the upper bound is
    looked at, and conversely. *)
Lemma inWindow_zero_from bound other d :
  time.IsZero bound = true ->
  inWindow bound other d
  = time.IsZero other || negb (time.After (usage.Timestamp d) other).
Proof.
  intros Hz. unfold inWindow. rewrite Hz. cbn.
  by destruct (time.IsZero other), (time.After (usage.Timestamp d) other).
Qed.

Lemma inWindow_zero_to bound other d :
  time.IsZero bound = true ->
  inWindow other bound d
  = time.IsZero other || negb (time.Before (usage.Timestamp d) other).
Proof.
  intros Hz. unfold inWindow. rewrite Hz. cbn.
  by destruct (time.IsZero other), (time.Before (usage.Timestamp d) other).
Qed.

(** C10 (a bound at the zero instant), as the code has it.  In a call
    that answers with a report and whose supplied [from] parses to the
    zero instant, that bound is not enforced: the report aggregates the
    details that pass the model filter and are not after the upper bound
    (if one is in force).  When [to] is supplied too the call does exactly
    what it does without [from]; when [to] is absent the report aggregates
    every detail that passes the model filter: the window is open on both
    sides, and is not the window of the last 24 hours that a call without
    any bound gets.  Symmetrically for a supplied [to] at the zero
    instant. *)
Theorem zero_bound_ignored now snapshot q bound other resp :
  time.IsZero bound = true ->
  Returns Parse lookup now snapshot q resp ->
  (isEmpty (fromStr q) = false ->
   window Parse now q = inr (bound, other) ->
   Aggregates lookup
     (List.filter
        (fun e => time.IsZero other
                  || negb (time.After (usage.Timestamp (snd e)) other))
        (visited (modelFilter q) snapshot))
     resp /\
   (isEmpty (toStr q) = false ->
    GetMetrics Parse lookup now snapshot q
    = GetMetrics Parse lookup now snapshot
        (mkQuery EmptyString (toStr q) (modelFilter q))) /\
   (isEmpty (toStr q) = true ->
    Aggregates lookup (visited (modelFilter q) snapshot) resp)) /\
  (isEmpty (toStr q) = false ->
   window Parse now q = inr (other, bound) ->
   Aggregates lookup
     (List.filter
        (fun e => time.IsZero other
                  || negb (time.Before (usage.Timestamp (snd e)) other))
        (visited (modelFilter q) snapshot))
     resp /\
   (isEmpty (fromStr q) = false ->
    GetMetrics Parse lookup now snapshot q
    = GetMetrics Parse lookup now snapshot
        (mkQuery (fromStr q) EmptyString (modelFilter q))) /\
   (isEmpty (fromStr q) = true ->
    Aggregates lookup (visited (modelFilter q) snapshot) resp)).
Proof.
  intros Hz (f & t & Hw0 & ->)%Returns_report.
  split; intros Hsup Hw; rewrite Hw in Hw0; injection Hw0 as <- <-.
  - assert (matching bound other (modelFilter q) snapshot
            = List.filter
                (fun e => time.IsZero other
                          || negb (time.After (usage.Timestamp (snd e)) other))
                (visited (modelFilter q) snapshot)) as Hm.
    { unfold matching. apply filter_ext. intros e.
      by apply inWindow_zero_from. }
    pose proof (report_Aggregates lookup bound other (modelFilter q) snapshot)
      as Hagg.
    rewrite Hm in Hagg. split; [done|]. split.
    + intros Hto. unfold GetMetrics. rewrite Hw. cbn [modelFilter].
      revert Hw. unfold window, parseBound. cbn [fromStr toStr].
      rewrite Hsup, Hto. cbn.
      destruct (Parse time.RFC3339 (fromStr q)) as [f|]; [|done].
      destruct (Parse time.RFC3339 (toStr q)) as [t|]; [|done].
      intros [= <- <-].
      assert (report lookup f t (modelFilter q) snapshot
              = report lookup time.zero t (modelFilter q) snapshot) as ->;
        [|done].
      apply report_ext. intros name d _. by rewrite !inWindow_zero_from.
    + intros Hto. revert Hw. unfold window, parseBound.
      rewrite Hsup, Hto. cbn.
      destruct (Parse time.RFC3339 (fromStr q)) as [f|]; [|done].
      intros [= <- <-]. rewrite filter_all in Hagg; done.
  - assert (matching other bound (modelFilter q) snapshot
            = List.filter
                (fun e => time.IsZero other
                          || negb (time.Before (usage.Timestamp (snd e)) other))
                (visited (modelFilter q) snapshot)) as Hm.
    { unfold matching. apply filter_ext. intros e.
      by apply inWindow_zero_to. }
    pose proof (report_Aggregates lookup other bound (modelFilter q) snapshot)
      as Hagg.
    rewrite Hm in Hagg. split; [done|]. split.
    + intros Hfrom. unfold GetMetrics. rewrite Hw. cbn [modelFilter].
      revert Hw. unfold window, parseBound. cbn [fromStr toStr].
      rewrite Hsup, Hfrom. cbn.
      destruct (Parse time.RFC3339 (fromStr q)) as [f|]; [|done].
      destruct (Parse time.RFC3339 (toStr q)) as [t|]; [|done].
      intros [= <- <-].
      assert (report lookup f t (modelFilter q) snapshot
              = report lookup f time.zero (modelFilter q) snapshot) as ->;
        [|done].
      apply report_ext. intros name d _. by rewrite !inWindow_zero_to.
    + intros Hfrom. revert Hw. unfold window, parseBound.
      rewrite Hsup, Hfrom. cbn.
      destruct (Parse time.RFC3339 (toStr q)) as [t|]; [|done].
      intros [= <- <-]. rewrite filter_all in Hagg; done.
Qed.

End Claims.

(** * The claims on concrete calls *)

Lemma sum_consistency_witness :
  Returns time.ParseUTC Scenario.zones Scenario.now Scenario.snapshot
    Scenario.query Scenario.expected /\
  sum64 (map ModelMetrics.Tokens (ByModel Scenario.expected))
  = TotalsMetrics.Tokens (Totals Scenario.expected) /\
  sumZ (map TimeseriesBucket.Tokens (Timeseries Scenario.expected))
  = TotalsMetrics.Tokens (Totals Scenario.expected).
Proof.
  split; [vm_compute; reflexivity|].
  destruct (sum_consistency time.ParseUTC Scenario.zones Scenario.now
              Scenario.snapshot Scenario.query Scenario.expected)
    as [(_ & _ & H64 & _) (f & t & Hw & Hexact)]; [vm_compute; reflexivity|].
  split; [exact H64|].
  vm_compute in Hw. injection Hw as <- <-.
  destruct Hexact as (_ & _ & _ & HZ); [|exact HZ].
  repeat split. repeat constructor; cbn; lia.
Defined.


Lemma hour_bucket_witness :
  Returns time.ParseUTC Scenario.zones Scenario.now Scenario.snapshot
    Scenario.query Scenario.expected /\
  time.wf (time.DateUTC 2024 1 1 10 50 0) /\
  exists x,
    In x (Timeseries Scenario.expected) /\
    TimeseriesBucket.BucketStart x = "2024-01-01T10:00:00Z"%string.
Proof.
  split; [vm_compute; reflexivity|].
  assert (time.wf (time.DateUTC 2024 1 1 10 50 0)) as Hwf
    by (unfold time.wf; cbn; lia).
  split; [exact Hwf|].
  destruct (hour_bucket time.ParseUTC Scenario.zones Scenario.now
              Scenario.snapshot Scenario.query Scenario.expected)
    as (f & t & Hw & Hb); [vm_compute; reflexivity|].
  vm_compute in Hw. injection Hw as <- <-.
  destruct (Hb "gpt"%string
              (Scenario.detail (time.DateUTC 2024 1 1 10 50 0) 50))
    as (_ & _ & _ & _ & _ & _ & x & Hin & _ & Hbs).
  - vm_compute. right. left. reflexivity.
  - exact Hwf.
  - exists x. split; [exact Hin|]. rewrite Hbs. vm_compute. reflexivity.
Defined.

Lemma malformed_bound_witness :
  GetMetrics time.ParseUTC Scenario.zones Scenario.now Scenario.snapshot
    (mkQuery "not-a-date" EmptyString EmptyString)
  = [JSON http.StatusBadRequest (ErrorBody "invalid 'from' timestamp format")]
  /\
  GetMetrics time.ParseUTC Scenario.zones Scenario.now Scenario.snapshot
    (mkQuery "2024-01-01T00:00:00Z" "2024-13-01T00:00:00Z" EmptyString)
  = [JSON http.StatusBadRequest (ErrorBody "invalid 'to' timestamp format")].
Proof.
  split.
  - destruct (malformed_bound time.ParseUTC Scenario.zones Scenario.now
                Scenario.snapshot
                (mkQuery "not-a-date" EmptyString EmptyString))
      as (Hfrom & _ & _).
    apply Hfrom; vm_compute; reflexivity.
  - destruct (malformed_bound time.ParseUTC Scenario.zones Scenario.now
                Scenario.snapshot
                (mkQuery "2024-01-01T00:00:00Z" "2024-13-01T00:00:00Z"
                   EmptyString))
      as (_ & Hto & _).
    apply Hto.
    + vm_compute. reflexivity.
    + vm_compute. reflexivity.
    + right. vm_compute. eexists. reflexivity.
Defined.

Lemma default_window_witness :
  time.ParseUTC time.RFC3339 "2024-01-01T09:00:00Z"
  = Some AgreeingClocks.lower /\
  time.ParseUTC time.RFC3339 "2024-01-02T09:00:00Z"
  = Some AgreeingClocks.upper /\
  clocksAgree AgreeingClocks.now AgreeingClocks.timestamp /\
  GetMetrics time.ParseUTC Scenario.zones AgreeingClocks.now
    AgreeingClocks.snapshot (mkQuery EmptyString EmptyString EmptyString)
  = GetMetrics time.ParseUTC Scenario.zones AgreeingClocks.now
      AgreeingClocks.snapshot
      (mkQuery "2024-01-01T09:00:00Z" "2024-01-02T09:00:00Z" EmptyString).
Proof.
  assert (clocksAgree AgreeingClocks.now AgreeingClocks.timestamp) as Hagree
    by (vm_compute; reflexivity).
  split; [vm_compute; reflexivity|].
  split; [vm_compute; reflexivity|].
  split; [exact Hagree|].
  apply (default_window time.ParseUTC Scenario.zones AgreeingClocks.now
           AgreeingClocks.snapshot EmptyString
           "2024-01-01T09:00:00Z" "2024-01-02T09:00:00Z"
           AgreeingClocks.lower AgreeingClocks.upper).
  - reflexivity.
  - reflexivity.
  - vm_compute. reflexivity.
  - vm_compute. reflexivity.
  - reflexivity.
  - reflexivity.
  - split; vm_compute; reflexivity.
  - split; vm_compute; reflexivity.
  - unfold time.wf. cbn. lia.
  - repeat constructor; try (cbn; lia).
Defined.


Lemma zero_bound_ignored_witness :
  let lo := time.DateUTC 2024 1 1 11 0 0 in
  time.ParseUTC time.RFC3339 (toStr ZeroBound.fromEleven) = Some time.zero /\
  Returns time.ParseUTC Scenario.zones Scenario.now Scenario.snapshot
    ZeroBound.fromEleven ZeroBound.reported /\
  Aggregates Scenario.zones
    (List.filter
       (fun e => time.IsZero lo
                 || negb (time.Before (usage.Timestamp (snd e)) lo))
       (visited EmptyString Scenario.snapshot))
    ZeroBound.reported /\
  GetMetrics time.ParseUTC Scenario.zones Scenario.now Scenario.snapshot
    ZeroBound.fromEleven
  = GetMetrics time.ParseUTC Scenario.zones Scenario.now Scenario.snapshot
      (mkQuery "2024-01-01T11:00:00Z" EmptyString EmptyString) /\
  Returns time.ParseUTC Scenario.zones Scenario.now Scenario.snapshot
    ZeroBound.lowerAtZero Scenario.expected /\
  Aggregates Scenario.zones (visited EmptyString Scenario.snapshot)
    Scenario.expected.
Proof.
  intros lo.
  split; [vm_compute; reflexivity|].
  split; [vm_compute; reflexivity|].
  destruct (zero_bound_ignored time.ParseUTC Scenario.zones Scenario.now
              Scenario.snapshot ZeroBound.fromEleven time.zero lo
              ZeroBound.reported) as [_ Hto].
  - reflexivity.
  - vm_compute. reflexivity.
  - destruct Hto as (Hagg & Hsame & _).
    + reflexivity.
    + vm_compute. reflexivity.
    + split; [exact Hagg|]. split; [apply Hsame; reflexivity|].
      split; [vm_compute; reflexivity|].
      destruct (zero_bound_ignored time.ParseUTC Scenario.zones Scenario.now
                  Scenario.snapshot ZeroBound.lowerAtZero time.zero time.zero
                  Scenario.expected) as [Hfrom _].
      * reflexivity.
      * vm_compute. reflexivity.
      * destruct Hfrom as (_ & _ & Hall).
        -- reflexivity.
        -- vm_compute. reflexivity.
        -- apply Hall. reflexivity.
Defined.



(** ** Where the code departs from the claims *)

(** C3, as stated, fails: a request at 10:15 in a zone at UTC+05:30 is
    counted in a bucket that starts at 09:30 on the clock of that zone,
    not at 10:00. *)
Lemma hour_bucket_counterexample :
  GetMetrics time.ParseUTC HalfHourZone.zones Scenario.now
    HalfHourZone.snapshot Scenario.query
  = [Snapshot; Println HalfHourZone.reported;
     JSON http.StatusOK (ReportBody HalfHourZone.reported)] /\
  time.Format HalfHourZone.zones HalfHourZone.timestamp time.RFC3339
  = "2024-01-01T10:15:00+05:30"%string /\
  time.MinuteOf HalfHourZone.zones
    (time.Truncate HalfHourZone.timestamp time.Hour) = 30 /\
  time.HourOf HalfHourZone.zones
    (time.Truncate HalfHourZone.timestamp time.Hour) = 9 /\
  time.HourOf HalfHourZone.zones HalfHourZone.timestamp = 10.
Proof. repeat split; vm_compute; reflexivity. Qed.

(** C5, as stated, fails: after the machine slept, the call without
    bounds counts a request that the call with the bounds [now - 24h] and
    [now] spelled out leaves out. *)
Lemma default_window_counterexample :
  time.ParseUTC time.RFC3339 (fromStr SuspendedClock.explicitQuery)
  = Some SuspendedClock.lower /\
  time.ParseUTC time.RFC3339 (toStr SuspendedClock.explicitQuery)
  = Some SuspendedClock.upper /\
  sameInstant SuspendedClock.lower
    (time.Add SuspendedClock.now (-24 * time.Hour)) /\
  sameInstant SuspendedClock.upper SuspendedClock.now /\
  GetMetrics time.ParseUTC SuspendedClock.zones SuspendedClock.now
    SuspendedClock.snapshot SuspendedClock.defaultQuery
  = [Snapshot; Println SuspendedClock.reported;
     JSON http.StatusOK (ReportBody SuspendedClock.reported)] /\
  GetMetrics time.ParseUTC SuspendedClock.zones SuspendedClock.now
    SuspendedClock.snapshot SuspendedClock.explicitQuery
  = [Snapshot; Println emptyReport; JSON http.StatusOK (ReportBody emptyReport)]
  /\
  GetMetrics time.ParseUTC SuspendedClock.zones SuspendedClock.now
    SuspendedClock.snapshot SuspendedClock.defaultQuery
  <> GetMetrics time.ParseUTC SuspendedClock.zones SuspendedClock.now
       SuspendedClock.snapshot SuspendedClock.explicitQuery.
Proof.
  repeat split; try (vm_compute; reflexivity).
  vm_compute. discriminate.
Qed.


(** C10, as stated, fails: two days after the requests of the scenario, a
    call with only [from], at the zero instant, counts the three of them,
    and the same call with [from] absent counts none. *)
Lemma zero_bound_ignored_counterexample :
  time.ParseUTC time.RFC3339 (fromStr ZeroBound.lowerAtZero) = Some time.zero /\
  GetMetrics time.ParseUTC Scenario.zones ZeroBound.now Scenario.snapshot
    ZeroBound.lowerAtZero
  = [Snapshot; Println Scenario.expected;
     JSON http.StatusOK (ReportBody Scenario.expected)] /\
  GetMetrics time.ParseUTC Scenario.zones ZeroBound.now Scenario.snapshot
    (mkQuery EmptyString (toStr ZeroBound.lowerAtZero)
       (modelFilter ZeroBound.lowerAtZero))
  = [Snapshot; Println emptyReport; JSON http.StatusOK (ReportBody emptyReport)].
Proof. repeat split; vm_compute; reflexivity. Qed.

(** C6 on timestamps of one hour in two locations: the report has two
    [timeseries] entries with the same [bucket_start]. *)
Theorem duplicate_bucket_start :
  GetMetrics time.ParseUTC MixedLocations.zones Scenario.now
    MixedLocations.snapshot Scenario.query
  = [Snapshot; Println MixedLocations.reported;
     JSON http.StatusOK (ReportBody MixedLocations.reported)] /\
  map TimeseriesBucket.BucketStart (Timeseries MixedLocations.reported)
  = ["2024-01-01T10:00:00Z"%string; "2024-01-01T10:00:00Z"%string] /\
  time.Truncate MixedLocations.inUTC time.Hour
  <> time.Truncate MixedLocations.inLocal time.Hour.
Proof.
  split; [vm_compute; reflexivity|]. split; [reflexivity|].
  vm_compute. discriminate.
Qed.

(** The snapshots used above are values of the snapshot type: distinct
    keys in every map, [int64] token counts, nanoseconds below a second. *)
Lemma inputs_well_formed :
  usage.wf Scenario.snapshot /\ usage.wf HalfHourZone.snapshot /\
  usage.wf SuspendedClock.snapshot /\ usage.wf AgreeingClocks.snapshot /\
  usage.wf MixedLocations.snapshot /\ usage.wf TwoProviders.snapshot /\
  usage.wf Bounds.snapshot /\ usage.wf LastDay.snapshot.
Proof.
  unfold usage.wf, usage.wf_api, usage.wf_detail, time.wf, is_int64.
  int64_consts.
  repeat split; try compute_done;
    repeat constructor; cbn; try lia; compute_done.
Qed.

(** * Further properties of the handler *)

(** ** Helpers *)

Lemma passesFilter_empty name : passesFilter EmptyString name = true.
Proof. done. Qed.

Lemma filter_map_pair (p : string -> bool) (name : string)
    (ds : list usage.RequestDetail) :
  List.filter (fun e : string * usage.RequestDetail => p (fst e))
    (map (pair name) ds)
  = if p name then map (pair name) ds else [].
Proof.
  induction ds as [|d ds IH]; cbn [map List.filter fst].
  - by destruct (p name).
  - rewrite IH. by destruct (p name).
Qed.

(** The details reached with a model filter are those reached without it
    whose model name passes the filter. *)
Lemma visited_filter flt snapshot :
  visited flt snapshot
  = List.filter (fun e => passesFilter flt (fst e))
      (visited EmptyString snapshot).
Proof.
  unfold visited.
  induction (usage.APIs snapshot) as [|api apis IH]; [done|].
  cbn [flat_map]. rewrite List.filter_app, IH. f_equal.
  induction (usage.Models (snd api)) as [|[name ms] models IHm]; [done|].
  cbn [flat_map fst snd]. rewrite List.filter_app, IHm. f_equal.
  rewrite passesFilter_empty.
  by rewrite (filter_map_pair (passesFilter flt)).
Qed.

Lemma matching_appendProviders fromTime toTime flt s1 s2 :
  matching fromTime toTime flt (appendProviders s1 s2)
  = matching fromTime toTime flt s1 ++ matching fromTime toTime flt s2.
Proof.
  unfold matching, visited, appendProviders. cbn [usage.APIs].
  by rewrite flat_map_app, List.filter_app.
Qed.

(** [Truncate(time.Hour)] spelled out. *)
Lemma Truncate_Hour_eq t :
  time.wf t ->
  time.Truncate t time.Hour
  = time.mkTime (3600 * (time.sec t / 3600)) 0 None (time.loc t).
Proof.
  intros Hwf. destruct (Truncate_Hour t Hwf) as (Hm & Hl & Hn & Hs & Hle).
  destruct (time.Truncate t time.Hour) as [s n m l]. cbn in *. subst.
  f_equal. apply Z.mod_divide in Hs as [k ->]; [|lia].
  assert (time.sec t / 3600 = k) as ->; [|lia].
  symmetry. apply (Z.div_unique _ _ _ (time.sec t - k * 3600)); lia.
Qed.

Section Further.

Variable Parse : time.Layout -> string -> option time.Time.
Variable lookup : time.Location -> Z -> Z.

(** X1 (when the call succeeds).  The call answers 200 with a report
    exactly when each bound that is supplied parses; otherwise all it does
    is answer 400 with one of its two messages. *)
Theorem answers_200_iff_bounds_parse now snapshot q :
  ((exists resp, Returns Parse lookup now snapshot q resp) <->
   (isEmpty (fromStr q) = true \/ is_Some (Parse time.RFC3339 (fromStr q))) /\
   (isEmpty (toStr q) = true \/ is_Some (Parse time.RFC3339 (toStr q)))) /\
  ((exists resp, Returns Parse lookup now snapshot q resp) \/
   GetMetrics Parse lookup now snapshot q
   = [JSON http.StatusBadRequest
        (ErrorBody "invalid 'from' timestamp format")] \/
   GetMetrics Parse lookup now snapshot q
   = [JSON http.StatusBadRequest
        (ErrorBody "invalid 'to' timestamp format")]).
Proof.
  unfold Returns, GetMetrics, window, parseBound.
  destruct (isEmpty (fromStr q)) eqn:Ef, (isEmpty (toStr q)) eqn:Et; cbn;
    try destruct (Parse time.RFC3339 (fromStr q)) as [f|] eqn:Pf;
    try destruct (Parse time.RFC3339 (toStr q)) as [t|] eqn:Pt; cbn;
    (split; [split|]);
    try (intros [resp Hresp]; discriminate Hresp);
    try (intros _; by eexists);
    try (intros _; split; (by left) || (right; by eexists));
    try (left; by eexists);
    try (by right; left); try (by right; right);
    try (intros [[H|[x H]] [H'|[x' H']]]; discriminate).
Qed.

Lemma report_of_counting fromTime toTime flt snapshot :
  report lookup fromTime toTime flt snapshot
  = respond (counting lookup (matching fromTime toTime flt snapshot)).
Proof. unfold report. by rewrite traverse_counting. Qed.

Lemma bucketEntry_row bucket l :
  bucketEntry lookup bucket l
  = match ofBucket bucket l with
    | [] => None
    | _ => Some (bucketRow lookup bucket l)
    end.
Proof. unfold bucketEntry, bucketRow. by destruct (ofBucket bucket l). Qed.

Lemma ofBucket_nonempty bucket l :
  ofBucket bucket l <> [] <-> exists e, In e l /\ bucketOf e = bucket.
Proof.
  unfold ofBucket. split.
  - destruct (List.filter _ l) as [|e ds] eqn:E; [done|]. intros _.
    assert (In e (List.filter (fun e => bool_decide (bucketOf e = bucket)) l))
      as [Hin Hb%bool_decide_eq_true]%filter_In by (rewrite E; by left).
    by exists e.
  - intros (e & Hin & Hb) Hnil.
    assert (In e (List.filter (fun e => bool_decide (bucketOf e = bucket)) l))
      as Hin' by (apply filter_In; split; [done|by apply bool_decide_eq_true]).
    rewrite Hnil in Hin'. destruct Hin'.
Qed.

Lemma ofModel_nonempty name l :
  ofModel name l <> [] <-> exists d, In (name, d) l.
Proof.
  unfold ofModel. split.
  - destruct (List.filter _ l) as [|[n d] ds] eqn:E; [done|]. intros _.
    assert (In (n, d) (List.filter (fun e => bool_decide (fst e = name)) l))
      as [Hin Hb%bool_decide_eq_true]%filter_In by (rewrite E; by left).
    cbn in Hb. subst n. by exists d.
  - intros (d & Hin) Hnil.
    assert (In (name, d)
              (List.filter (fun e => bool_decide (fst e = name)) l))
      as Hin' by (apply filter_In; split; [done|by apply bool_decide_eq_true]).
    rewrite Hnil in Hin'. destruct Hin'.
Qed.

(** X2 (totals).  In a call that answers with a report, [totals.requests]
    is the number of details that get past the model filter and the
    window, and [totals.tokens] the sum of their token counts: as [int64]
    in general, and exactly when these details do not overflow one. *)
Theorem totals_count_matching now snapshot q resp :
  Returns Parse lookup now snapshot q resp ->
  exists fromTime toTime,
    window Parse now q = inr (fromTime, toTime) /\
    let counted := matching fromTime toTime (modelFilter q) snapshot in
    TotalsMetrics.Requests (Totals resp) = wrap64 (Z.of_nat (length counted)) /\
    TotalsMetrics.Tokens (Totals resp) = wrap64 (sumZ (tokensOf counted)) /\
    (noOverflow counted ->
     TotalsMetrics.Requests (Totals resp) = Z.of_nat (length counted) /\
     TotalsMetrics.Tokens (Totals resp) = sumZ (tokensOf counted)).
Proof.
  intros Hret. apply Returns_report in Hret as (f & t & Hw & ->).
  exists f, t. split; [done|]. intros counted.
  destruct (report_Aggregates lookup f t (modelFilter q) snapshot)
    as (Htot & _ & _).
  fold counted in Htot. rewrite Htot. cbn. do 2 (split; [done|]).
  intros (Hnn & Hsum & Hlen).
  destruct (group_bounds (fun _ => true) counted Hnn) as [Hpos _].
  rewrite !wrap64_id; [done|..]; unfold is_int64; int64_consts; lia.
Qed.

(** X3 (rows of [by_model]).  In a call that answers with a report, a
    model name has a [by_model] row exactly when at least one detail filed
    under it is counted, so a model whose details all fall outside the
    window has no row; and when the counted details do not overflow an
    [int64] every row has at least one request. *)
Theorem by_model_rows now snapshot q resp :
  Returns Parse lookup now snapshot q resp ->
  exists fromTime toTime,
    window Parse now q = inr (fromTime, toTime) /\
    let counted := matching fromTime toTime (modelFilter q) snapshot in
    (forall name,
       In name (map ModelMetrics.Model (ByModel resp)) <->
       exists d, In (name, d) counted) /\
    (noOverflow counted ->
     forall x, In x (ByModel resp) -> 1 <= ModelMetrics.Requests x).
Proof.
  intros Hret. apply Returns_report in Hret as (f & t & Hw & ->).
  exists f, t. split; [done|]. intros counted.
  destruct (report_Aggregates lookup f t (modelFilter q) snapshot)
    as (_ & Hbm & _).
  fold counted in Hbm. split.
  - intros name. rewrite <- ofModel_nonempty, in_map_iff. split.
    + intros (x & <- & [n Hn]%Hbm). unfold modelEntry in Hn.
      destruct (ofModel n counted) eqn:E; [done|].
      injection Hn as <-. cbn. by rewrite E.
    + intros Hne.
      destruct (modelEntry name counted) as [x|] eqn:E.
      * exists x. split; [|apply Hbm; by exists name].
        unfold modelEntry in E. destruct (ofModel name counted); [done|].
        by injection E as <-.
      * unfold modelEntry in E. by destruct (ofModel name counted).
  - intros (Hnn & Hsum & Hlen) x [name Hx]%Hbm. unfold modelEntry in Hx.
    destruct (group_bounds (fun e => bool_decide (fst e = name)) counted Hnn)
      as [_ Hl].
    fold (ofModel name counted) in Hl.
    destruct (ofModel name counted) as [|e ds] eqn:E; [done|].
    injection Hx as <-. cbn [ModelMetrics.Requests].
    rewrite wrap64_id; unfold is_int64; int64_consts; cbn [length] in *; lia.
Qed.

(** X4 (rows of [timeseries]).  In a call that answers with a report, the
    [timeseries] rows are, up to their order, one row for each distinct
    truncated timestamp of the counted details: its [bucket_start] is that
    time in RFC 3339 and its counters are the [int64] sums over the
    counted details that truncate to it. *)
Theorem timeseries_rows now snapshot q resp :
  Returns Parse lookup now snapshot q resp ->
  exists fromTime toTime,
    window Parse now q = inr (fromTime, toTime) /\
    let counted := matching fromTime toTime (modelFilter q) snapshot in
    exists buckets : list time.Time,
      NoDup buckets /\
      (forall b, In b buckets <-> exists e, In e counted /\ bucketOf e = b) /\
      Permutation (Timeseries resp)
        (map (fun b => bucketRow lookup b counted) buckets).
Proof.
  intros Hret. apply Returns_report in Hret as (f & t & Hw & ->).
  exists f, t. split; [done|]. intros counted.
  rewrite report_of_counting. fold counted.
  set (m := timeseriesMap (counting lookup counted)).
  assert (forall b v, m !! b = Some v ->
                      ofBucket b counted <> [] /\
                      v = bucketRow lookup b counted) as Hrow.
  { intros b v. subst m. rewrite counting_bucket, bucketEntry_row.
    destruct (ofBucket b counted); [done|]. by intros [= <-]. }
  exists (map fst (map_to_list m)). split; [apply NoDup_fst_map_to_list|].
  split.
  - intros b. rewrite <- ofBucket_nonempty, in_map_iff. split.
    + intros ([b' v] & <- & Hin%list_elem_of_In%elem_of_map_to_list).
      by apply Hrow in Hin as [Hne _].
    + intros Hne. subst m.
      destruct (timeseriesMap (counting lookup counted) !! b) as [v|] eqn:E.
      * exists (b, v). split; [done|].
        by apply list_elem_of_In, elem_of_map_to_list.
      * rewrite counting_bucket, bucketEntry_row in E.
        by destruct (ofBucket b counted).
  - unfold respond. cbn [Timeseries]. fold m.
    rewrite Slice_Permutation, map_map.
    erewrite map_ext_in; [done|].
    intros [b v] Hin%list_elem_of_In%elem_of_map_to_list. cbn.
    by apply Hrow in Hin as [_ ->].
Qed.

(** X5 (the empty report).  In a call that answers with a report, the
    report is the one with zero totals and two empty sequences exactly
    when no detail is counted; it is in particular the report of a
    snapshot that has no provider. *)
Theorem empty_report_iff_nothing_counted now snapshot q resp :
  Returns Parse lookup now snapshot q resp ->
  exists fromTime toTime,
    window Parse now q = inr (fromTime, toTime) /\
    (resp = emptyReport <->
     matching fromTime toTime (modelFilter q) snapshot = []) /\
    (usage.APIs snapshot = [] -> resp = emptyReport).
Proof.
  intros Hret. apply Returns_report in Hret as (f & t & Hw & ->).
  exists f, t. split; [done|].
  assert (matching f t (modelFilter q) snapshot = [] ->
          report lookup f t (modelFilter q) snapshot = emptyReport) as Hempty.
  { intros Hnil. rewrite report_of_counting, Hnil.
    unfold counting, respond. cbn. by rewrite !map_to_list_empty. }
  split; [split; [|done]|].
  - intros Hresp.
    destruct (matching f t (modelFilter q) snapshot) as [|[name d] l] eqn:E;
      [done|].
    destruct (report_Aggregates lookup f t (modelFilter q) snapshot)
      as (_ & Hbm & _).
    rewrite Hresp, E in Hbm.
    destruct (modelEntry name ((name, d) :: l)) as [x|] eqn:Ex.
    + destruct (proj2 (Hbm x)). by exists name.
    + unfold modelEntry, ofModel in Ex. cbn [List.filter fst] in Ex.
      by rewrite bool_decide_eq_true_2 in Ex.
  - intros Hapis. apply Hempty. unfold matching, visited. by rewrite Hapis.
Qed.

(** X6 (order of the two sequences).  In a call that answers with a
    report, the names of [by_model] are strictly ascending in Go's string
    order, hence without repetition, and no [bucket_start] of [timeseries]
    is below an earlier one. *)
Theorem sequences_sorted now snapshot q resp :
  Returns Parse lookup now snapshot q resp ->
  StronglySorted (fun a b => String.ltb a b = true)
    (map ModelMetrics.Model (ByModel resp)) /\
  NoDup (map ModelMetrics.Model (ByModel resp)) /\
  StronglySorted (fun a b => String.ltb b a = false)
    (map TimeseriesBucket.BucketStart (Timeseries resp)).
Proof.
  intros Hret. apply Returns_report in Hret as (f & t & Hw & ->).
  split; [apply by_model_strictly_ascending|].
  split; [apply by_model_NoDup|apply timeseries_ascending].
Qed.

Lemma ascending_unique (l1 l2 : list string) :
  StronglySorted (fun a b => String.ltb b a = false) l1 ->
  StronglySorted (fun a b => String.ltb b a = false) l2 ->
  Permutation l1 l2 -> l1 = l2.
Proof.
  apply StronglySorted_unique_strong.
  intros x1 x2 _ _ H12%ltb_false_le H21%ltb_false_le.
  by apply (anti_symm String.le).
Qed.

Lemma Sorted_keys_ascending {A} (key : A -> string) (l : list A) :
  Sorted (fun a b => String.ltb (key b) (key a) = false) l ->
  StronglySorted (fun a b => String.ltb b a = false) (map key l).
Proof.
  intros Hs.
  apply (StronglySorted_fmap key
           (fun a b => String.ltb (key b) (key a) = false)); [done|].
  apply Sorted_StronglySorted; [|done].
  intros a b c Hab Hbc. apply ltb_false_le in Hab, Hbc. apply ltb_false_le.
  by etrans.
Qed.

(** X7 (the sequences do not depend on how the maps are ranged over or
    sorted).  In a call that answers with a report, take the entries of
    the accumulator maps in any order and arrange them in any way that
    puts no key below an earlier one, as [range] and [sort.Slice] may:
    for [modelMetricsMap] the result is the reported [by_model]; for
    [timeseriesMap] it has the rows of the reported [timeseries] and the
    same sequence of [bucket_start] values. *)
Theorem sequences_determined now snapshot q resp :
  Returns Parse lookup now snapshot q resp ->
  exists fromTime toTime,
    window Parse now q = inr (fromTime, toTime) /\
    let st := traverse lookup fromTime toTime (modelFilter q) snapshot in
    (forall l : list ModelMetrics,
       Permutation l (map snd (map_to_list (modelMetricsMap st))) ->
       Sorted (fun a b => String.ltb (ModelMetrics.Model b)
                            (ModelMetrics.Model a) = false) l ->
       l = ByModel resp) /\
    (forall l : list TimeseriesBucket,
       Permutation l (map snd (map_to_list (timeseriesMap st))) ->
       Sorted (fun a b => String.ltb (TimeseriesBucket.BucketStart b)
                            (TimeseriesBucket.BucketStart a) = false) l ->
       Permutation l (Timeseries resp) /\
       map TimeseriesBucket.BucketStart l
       = map TimeseriesBucket.BucketStart (Timeseries resp)).
Proof.
  intros Hret. apply Returns_report in Hret as (f & t & Hw & ->).
  exists f, t. split; [done|]. intros st. split.
  - intros l Hp Hs. by apply by_model_determined.
  - intros l Hp Hs.
    assert (Permutation l
              (Timeseries (report lookup f t (modelFilter q) snapshot)))
      as Hl.
    { rewrite Hp. unfold report, respond. cbn [Timeseries]. fold st.
      symmetry. apply Slice_Permutation. }
    split; [done|]. apply ascending_unique.
    + by apply Sorted_keys_ascending.
    + apply timeseries_ascending.
    + by apply Permutation_map.
Qed.

(** X8 (the report depends on the details, not on where they sit).  Two
    snapshots that hold the same details under the same model names, in
    whatever order and under whatever providers, get the same totals, the
    same [by_model] and the same [timeseries] rows up to their order. *)
Theorem same_details_same_report now s1 s2 q resp1 resp2 :
  Permutation (visited EmptyString s1) (visited EmptyString s2) ->
  Returns Parse lookup now s1 q resp1 ->
  Returns Parse lookup now s2 q resp2 ->
  Totals resp1 = Totals resp2 /\
  ByModel resp1 = ByModel resp2 /\
  Permutation (Timeseries resp1) (Timeseries resp2).
Proof.
  intros Hp (f & t & Hw & ->)%Returns_report (f' & t' & Hw' & ->)%Returns_report.
  rewrite Hw in Hw'. injection Hw' as <- <-.
  assert (report lookup f t (modelFilter q) s1
          = report lookup f t (modelFilter q) s2) as ->; [|done].
  apply report_visit_order. rewrite !(visited_filter (modelFilter q)).
  by apply filter_Permutation_bool.
Qed.

Lemma IsZero_false t : time.wf t -> time.abs_ns t <> 0 -> time.IsZero t = false.
Proof.
  unfold time.wf, time.abs_ns, time.IsZero. intros Hwf Hne.
  destruct (Z.eqb_spec (time.sec t) 0), (Z.eqb_spec (time.nsec t) 0); cbn;
    try done; lia.
Qed.

Lemma Z_ltb_false a b : (a <? b) = false <-> b <= a.
Proof. destruct (Z.ltb_spec a b); intuition (try lia; try congruence). Qed.

(** X9 (the default window is the last 24 hours).  A call without
    [from] and [to], made later than a day after the zero instant, answers
    200 with a report that aggregates the counted details, and a detail
    the traversal reaches is counted exactly when it is at most 24 hours
    old and not later than [now]: on the monotonic clock when both [now]
    and the detail carry a monotonic reading, on the wall clock otherwise;
    either end of the window is included. *)
Theorem default_window_last_24h now snapshot flt :
  time.wf now ->
  24 * time.Hour < time.abs_ns now ->
  let q := mkQuery EmptyString EmptyString flt in
  let lo := time.Add now (-24 * time.Hour) in
  exists resp,
    Returns Parse lookup now snapshot q resp /\
    Aggregates lookup (matching lo now flt snapshot) resp /\
    forall name d,
      In (name, d) (visited flt snapshot) ->
      time.wf (usage.Timestamp d) ->
      let counted := In (name, d) (matching lo now flt snapshot) in
      (forall mt mn,
         time.mono (usage.Timestamp d) = Some mt -> time.mono now = Some mn ->
         (counted <-> mn - 24 * time.Hour <= mt <= mn)) /\
      (time.mono (usage.Timestamp d) = None \/ time.mono now = None ->
       (counted <->
        time.abs_ns now - 24 * time.Hour <= time.abs_ns (usage.Timestamp d)
        <= time.abs_ns now)).
Proof.
  intros Hnow Hlate q lo.
  destruct (Add_abs_ns now (-24 * time.Hour) Hnow) as [Hwlo Halo].
  fold lo in Hwlo, Halo.
  assert (time.IsZero lo = false) as Hzlo by (apply IsZero_false; [done|lia]).
  assert (time.IsZero now = false) as Hznow.
  { apply IsZero_false; [done|]. change time.Hour with 3600000000000 in *. lia. }
  exists (report lookup lo now flt snapshot).
  split; [by apply window_Returns|]. split; [apply report_Aggregates|].
  intros name d Hin Hd counted. subst counted.
  assert (In (name, d) (matching lo now flt snapshot) <->
          time.Before (usage.Timestamp d) lo = false /\
          time.After (usage.Timestamp d) now = false) as Hc.
  { rewrite In_matching, inWindow_true, Hzlo, Hznow. intuition congruence. }
  split.
  - intros mt mn Hmt Hmn. rewrite Hc.
    rewrite (Before_mono _ lo mt (mn + -24 * time.Hour));
      [|done|by subst lo; rewrite Add_mono, Hmn].
    rewrite (After_mono _ now mt mn) by done.
    rewrite Z.gtb_ltb, !Z_ltb_false. lia.
  - intros Hnone. rewrite Hc.
    assert (time.Before (usage.Timestamp d) lo
            = (time.abs_ns (usage.Timestamp d) <? time.abs_ns lo)) as ->.
    { destruct Hnone as [Hn|Hn]; [by apply Before_wall_l|].
      apply Before_wall; [|done..]. subst lo. by rewrite Add_mono, Hn. }
    assert (time.After (usage.Timestamp d) now
            = (time.abs_ns (usage.Timestamp d) >? time.abs_ns now)) as ->.
    { destruct Hnone as [Hn|Hn]; [by apply After_wall_l|by apply After_wall]. }
    rewrite Z.gtb_ltb, !Z_ltb_false, Halo. lia.
Qed.

(** X10 (a window whose bounds are the wrong way round).  When [from] and
    [to] both parse, to times after the zero instant, and [from] is later
    than [to], the call is not refused: it answers 200 with the empty
    report, whatever the snapshot holds. *)
Theorem inverted_window_counts_nothing now snapshot q lo hi :
  isEmpty (fromStr q) = false -> isEmpty (toStr q) = false ->
  Parse time.RFC3339 (fromStr q) = Some lo ->
  Parse time.RFC3339 (toStr q) = Some hi ->
  time.mono lo = None -> time.mono hi = None ->
  time.wf lo -> time.wf hi ->
  0 < time.abs_ns hi < time.abs_ns lo ->
  Forall (fun d => time.wf (usage.Timestamp d)) (allDetails snapshot) ->
  GetMetrics Parse lookup now snapshot q
  = [Snapshot; Println emptyReport; JSON http.StatusOK (ReportBody emptyReport)].
Proof.
  intros Hf Ht Hpf Hpt Hmlo Hmhi Hwlo Hwhi Hinv Hall.
  assert (window Parse now q = inr (lo, hi)) as Hw.
  { unfold window, parseBound. by rewrite Hf, Ht, Hpf, Hpt. }
  unfold GetMetrics. rewrite Hw.
  assert (report lookup lo hi (modelFilter q) snapshot = emptyReport) as ->;
    [|done].
  rewrite report_of_counting.
  assert (matching lo hi (modelFilter q) snapshot = []) as ->.
  { destruct (matching lo hi (modelFilter q) snapshot) as [|[name d] l] eqn:E;
      [done|].
    assert (In (name, d) (matching lo hi (modelFilter q) snapshot)) as Hin
      by (rewrite E; by left).
    apply In_matching in Hin as [Hin Hwin].
    apply visited_allDetails in Hin. rewrite Forall_forall in Hall.
    assert (time.wf (usage.Timestamp d)) as Hd
      by (by apply Hall, list_elem_of_In).
    apply inWindow_true in Hwin.
    rewrite !IsZero_false in Hwin by (done || lia).
    rewrite Before_wall, After_wall, Z.gtb_ltb, !Z_ltb_false in Hwin by done.
    destruct Hwin as [[?|?] [?|?]]; try done. lia. }
  unfold counting, respond. cbn. by rewrite !map_to_list_empty.
Qed.

(** X11 (which details share a [timeseries] row).  Two details with
    well-formed timestamps are counted under the same bucket key exactly
    when their timestamps lie in the same hour of absolute time and carry
    the same location pointer; what else the timestamps hold (minutes,
    seconds, nanoseconds, monotonic readings) plays no role. *)
Theorem same_bucket_iff_same_hour_and_location
    (e1 e2 : string * usage.RequestDetail) :
  time.wf (usage.Timestamp (snd e1)) -> time.wf (usage.Timestamp (snd e2)) ->
  (bucketOf e1 = bucketOf e2 <->
   time.sec (usage.Timestamp (snd e1)) / 3600
   = time.sec (usage.Timestamp (snd e2)) / 3600 /\
   time.loc (usage.Timestamp (snd e1)) = time.loc (usage.Timestamp (snd e2))).
Proof.
  intros H1 H2. unfold bucketOf. rewrite !Truncate_Hour_eq by done. split.
  - intros [= Hs Hl]. split; [lia|done].
  - intros [-> ->]. done.
Qed.

Lemma report_nothing_counted fromTime toTime flt snapshot :
  matching fromTime toTime flt snapshot = [] ->
  report lookup fromTime toTime flt snapshot = emptyReport.
Proof.
  intros Hnil. rewrite report_of_counting, Hnil.
  unfold counting, respond. cbn. by rewrite !map_to_list_empty.
Qed.

Lemma window_withoutFilter now q :
  window Parse now (withoutFilter q) = window Parse now q.
Proof. done. Qed.

Lemma filter_filter_comm {A} (p r : A -> bool) (l : list A) :
  List.filter p (List.filter r l) = List.filter r (List.filter p l).
Proof.
  induction l as [|x l IH]; [done|]. cbn [List.filter].
  destruct (p x) eqn:Hp, (r x) eqn:Hr; cbn [List.filter];
    rewrite ?Hp, ?Hr, IH; done.
Qed.

Lemma filter_nil {A} (p : A -> bool) (l : list A) :
  (forall x, In x l -> p x = false) -> List.filter p l = [].
Proof.
  induction l as [|x l IH]; [done|]. intros Hall. cbn [List.filter].
  rewrite (Hall x) by (by left). apply IH. intros y Hy. apply Hall. by right.
Qed.

(** With a model filter, the counted details are the counted details of
    the call without filter that are filed under that name. *)
Lemma matching_filter fromTime toTime flt snapshot :
  isEmpty flt = false ->
  matching fromTime toTime flt snapshot
  = ofModel flt (matching fromTime toTime EmptyString snapshot).
Proof.
  intros Hflt. unfold matching, ofModel.
  rewrite (visited_filter flt), filter_filter_comm. apply filter_ext.
  intros [name d]. unfold passesFilter. cbn [fst]. rewrite Hflt. cbn.
  rewrite negb_involutive.
  destruct (String.eqb_spec flt name) as [->|Hne].
  - by rewrite bool_decide_eq_true_2.
  - by rewrite bool_decide_eq_false_2.
Qed.

Lemma ofModel_ofModel name flt l :
  ofModel name (ofModel flt l)
  = if decide (name = flt) then ofModel flt l else [].
Proof.
  unfold ofModel. destruct (decide (name = flt)) as [->|Hne].
  - induction l as [|e l IH]; [done|]. cbn [List.filter].
    destruct (bool_decide (fst e = flt)) eqn:E; [|done].
    cbn [List.filter]. by rewrite E, IH.
  - apply filter_nil. intros e [_ He%bool_decide_eq_true]%filter_In.
    apply bool_decide_eq_false_2. congruence.
Qed.

Lemma singleton_of_NoDup_keys {A K} (key : A -> K) (l : list A) x0 :
  NoDup (map key l) -> In x0 l -> (forall x, In x l -> x = x0) -> l = [x0].
Proof.
  intros Hnd Hin Hall. destruct l as [|a l]; [done|].
  rewrite (Hall a) by (by left). f_equal.
  destruct l as [|b l]; [done|].
  rewrite (Hall a) in Hnd by (by left).
  rewrite (Hall b) in Hnd by (right; by left).
  cbn [map] in Hnd. apply NoDup_cons in Hnd as [Hnin _].
  destruct Hnin. by left.
Qed.

(** X12 (the model filter projects the unfiltered report).  For the same
    bounds, the report of a call with model filter [m] has as [by_model]
    the rows named [m] of the report without filter: when there is such a
    row its totals are that row's token and request counts, and when
    there is none it is the empty report. *)
Theorem model_filter_projects now snapshot q resp resp0 :
  isEmpty (modelFilter q) = false ->
  Returns Parse lookup now snapshot q resp ->
  Returns Parse lookup now snapshot (withoutFilter q) resp0 ->
  ByModel resp
  = List.filter (fun x => bool_decide (ModelMetrics.Model x = modelFilter q))
      (ByModel resp0) /\
  (forall x,
     In x (ByModel resp0) -> ModelMetrics.Model x = modelFilter q ->
     Totals resp
     = TotalsMetrics.mk (ModelMetrics.Tokens x) (ModelMetrics.Requests x)) /\
  ((forall x, In x (ByModel resp0) -> ModelMetrics.Model x <> modelFilter q) ->
   resp = emptyReport).
Proof.
  intros Hflt (f & t & Hw & ->)%Returns_report
    (f' & t' & Hw' & ->)%Returns_report.
  rewrite window_withoutFilter, Hw in Hw'. injection Hw' as <- <-.
  cbn [withoutFilter modelFilter].
  set (flt := modelFilter q) in *.
  set (M0 := matching f t EmptyString snapshot).
  pose proof (matching_filter f t flt snapshot Hflt) as HM. fold M0 in HM.
  destruct (report_Aggregates lookup f t flt snapshot) as (Htot & Hbm & _).
  destruct (report_Aggregates lookup f t EmptyString snapshot)
    as (_ & Hbm0 & _).
  rewrite HM in Htot, Hbm. fold M0 in Hbm0.
  assert (forall x, In x (ByModel (report lookup f t EmptyString snapshot)) ->
                    ModelMetrics.Model x = flt ->
                    modelEntry flt M0 = Some x) as Hrow0.
  { intros x [name Hx]%Hbm0 Hm.
    assert (ModelMetrics.Model x = name) as Hname.
    { unfold modelEntry in Hx. destruct (ofModel name M0); [done|].
      by injection Hx as <-. }
    congruence. }
  assert (forall x, In x (ByModel (report lookup f t flt snapshot)) <->
                    modelEntry flt M0 = Some x) as Hrow.
  { intros x. rewrite Hbm. unfold modelEntry.
    setoid_rewrite ofModel_ofModel. split.
    - intros [name Hx]. destruct (decide (name = flt)) as [->|]; [done|].
      discriminate Hx.
    - intros Hx. exists flt. by rewrite decide_True. }
  destruct (modelEntry flt M0) as [x0|] eqn:E0.
  - assert (ModelMetrics.Model x0 = flt) as Hx0.
    { unfold modelEntry in E0. destruct (ofModel flt M0); [done|].
      by injection E0 as <-. }
    assert (In x0 (ByModel (report lookup f t EmptyString snapshot))) as Hin0
      by (apply Hbm0; by exists flt).
    split; [|split].
    + transitivity [x0].
      * apply (singleton_of_NoDup_keys ModelMetrics.Model).
        -- apply by_model_NoDup.
        -- by apply Hrow.
        -- intros x Hx%Hrow. congruence.
      * symmetry. rewrite <- Hx0.
        apply (filter_unique_key ModelMetrics.Model); [|done].
        apply by_model_NoDup.
    + intros x Hx Hm. apply Hrow0 in Hx; [|done].
      injection Hx as <-. rewrite Htot.
      unfold modelEntry in E0. destruct (ofModel flt M0); [done|].
      by injection E0 as <-.
    + intros Hnone. by destruct (Hnone x0 Hin0).
  - assert (ofModel flt M0 = []) as Hnil.
    { unfold modelEntry in E0. by destruct (ofModel flt M0). }
    assert (report lookup f t flt snapshot = emptyReport) as Hempty
      by (apply report_nothing_counted; by rewrite HM).
    split; [|split].
    + rewrite Hempty. cbn [ByModel emptyReport]. symmetry.
      apply filter_nil. intros x Hx. apply bool_decide_eq_false_2.
      intros Hm. discriminate (Hrow0 x Hx Hm).
    + intros x Hx Hm. discriminate (Hrow0 x Hx Hm).
    + done.
Qed.

Lemma add64_wrap a b : add64 (wrap64 a) (wrap64 b) = wrap64 (a + b).
Proof.
  unfold add64. rewrite wrap64_add_l, (Z.add_comm a (wrap64 b)), wrap64_add_l.
  by rewrite Z.add_comm.
Qed.

(** X13 (totals add up over providers).  For the same query, the totals
    of a snapshot that holds the providers of two snapshots are the
    [int64] sums of the totals of the two. *)
Theorem totals_add_over_providers now s1 s2 q resp1 resp2 resp :
  Returns Parse lookup now s1 q resp1 ->
  Returns Parse lookup now s2 q resp2 ->
  Returns Parse lookup now (appendProviders s1 s2) q resp ->
  TotalsMetrics.Requests (Totals resp)
  = add64 (TotalsMetrics.Requests (Totals resp1))
      (TotalsMetrics.Requests (Totals resp2)) /\
  TotalsMetrics.Tokens (Totals resp)
  = add64 (TotalsMetrics.Tokens (Totals resp1))
      (TotalsMetrics.Tokens (Totals resp2)).
Proof.
  intros (f & t & Hw & ->)%Returns_report (f1 & t1 & Hw1 & ->)%Returns_report
    (f2 & t2 & Hw2 & ->)%Returns_report.
  rewrite Hw in Hw1, Hw2. injection Hw1 as <- <-. injection Hw2 as <- <-.
  destruct (report_Aggregates lookup f t (modelFilter q) s1) as (-> & _).
  destruct (report_Aggregates lookup f t (modelFilter q) s2) as (-> & _).
  destruct (report_Aggregates lookup f t (modelFilter q) (appendProviders s1 s2))
    as (-> & _).
  rewrite matching_appendProviders. cbn. unfold tokensOf.
  rewrite map_app, sumZ_app, length_app, Nat2Z.inj_add.
  by rewrite !add64_wrap.
Qed.

(** With bounds on the wall clock, the window is the closed interval
    between them. *)
Lemma inWindow_wall lo hi d :
  wallBound lo -> wallBound hi -> time.wf (usage.Timestamp d) ->
  inWindow lo hi d
  = (time.abs_ns lo <=? time.abs_ns (usage.Timestamp d))
    && (time.abs_ns (usage.Timestamp d) <=? time.abs_ns hi).
Proof.
  intros (Hwlo & Hmlo & Hlo) (Hwhi & Hmhi & Hhi) Hd.
  apply Bool.eq_true_iff_eq.
  rewrite inWindow_true, !IsZero_false by (done || lia).
  rewrite Before_wall, After_wall, Z.gtb_ltb, !Z_ltb_false by done.
  rewrite andb_true_iff, !Z.leb_le. intuition congruence.
Qed.

Lemma filter_filter_implied {A} (p r : A -> bool) (l : list A) :
  (forall x, In x l -> p x = true -> r x = true) ->
  List.filter p (List.filter r l) = List.filter p l.
Proof.
  induction l as [|x l IH]; [done|]. intros Himp. cbn [List.filter].
  assert (List.filter p (List.filter r l) = List.filter p l) as IH'
    by (apply IH; intros y Hy; apply Himp; by right).
  destruct (r x) eqn:Hr; cbn [List.filter].
  - by rewrite IH'.
  - destruct (p x) eqn:Hp; [|done].
    rewrite (Himp x) in Hr by (done || by left). discriminate Hr.
Qed.

(** X14 (a narrower window counts no more).  For the same model filter
    and snapshot, and bounds on the wall clock after the zero instant, a
    window that lies inside another one reports totals that are not above
    the totals of the other, and not below zero, as long as the details
    counted in the wider window do not overflow an [int64]. *)
Theorem narrower_window_counts_no_more
    now snapshot q q' lo hi lo' hi' resp resp' :
  modelFilter q' = modelFilter q ->
  window Parse now q = inr (lo, hi) ->
  window Parse now q' = inr (lo', hi') ->
  wallBound lo -> wallBound hi -> wallBound lo' -> wallBound hi' ->
  time.abs_ns lo <= time.abs_ns lo' -> time.abs_ns hi' <= time.abs_ns hi ->
  Forall (fun d => time.wf (usage.Timestamp d)) (allDetails snapshot) ->
  noOverflow (matching lo hi (modelFilter q) snapshot) ->
  Returns Parse lookup now snapshot q resp ->
  Returns Parse lookup now snapshot q' resp' ->
  0 <= TotalsMetrics.Requests (Totals resp')
    <= TotalsMetrics.Requests (Totals resp) /\
  0 <= TotalsMetrics.Tokens (Totals resp')
    <= TotalsMetrics.Tokens (Totals resp).
Proof.
  intros Hflt Hw Hw' Hlo Hhi Hlo' Hhi' Hle Hge Hall (Hnn & Hsum & Hlen)
    (f & t & Hw1 & ->)%Returns_report (f' & t' & Hw1' & ->)%Returns_report.
  rewrite Hw in Hw1. injection Hw1 as <- <-.
  rewrite Hw' in Hw1'. injection Hw1' as <- <-. rewrite Hflt.
  set (flt := modelFilter q) in *.
  destruct (report_Aggregates lookup lo hi flt snapshot) as (-> & _).
  destruct (report_Aggregates lookup lo' hi' flt snapshot) as (-> & _).
  assert (matching lo' hi' flt snapshot
          = List.filter (fun e => inWindow lo' hi' (snd e))
              (matching lo hi flt snapshot)) as ->.
  { unfold matching. symmetry. apply filter_filter_implied.
    intros [name d] Hin%visited_allDetails. cbn [snd].
    rewrite Forall_forall in Hall.
    assert (time.wf (usage.Timestamp d)) as Hd
      by (by apply Hall, list_elem_of_In).
    rewrite !inWindow_wall, !andb_true_iff, !Z.leb_le by done. lia. }
  destruct (group_bounds (fun e => inWindow lo' hi' (snd e)) _ Hnn)
    as [Htok Hreq].
  cbn. rewrite !wrap64_id; unfold is_int64; int64_consts; lia.
Qed.

Lemma length_sumZ {A} (l : list A) :
  Z.of_nat (length l) = sumZ (map (fun _ => 1) l).
Proof.
  induction l as [|x l IH]; [done|].
  cbn [length map]. change (sumZ (1 :: map (fun _ => 1) l))
    with (1 + sumZ (map (fun _ => 1) l)). lia.
Qed.

(** Four selections of one list whose indicator functions add up pairwise
    have measures that add up pairwise. *)
Lemma filter_sums {A} (g : A -> Z) (p1 p2 p3 p4 : A -> bool) (l : list A) :
  Forall (fun x => Z.b2z (p1 x) + Z.b2z (p2 x)
                   = Z.b2z (p3 x) + Z.b2z (p4 x)) l ->
  sumZ (map g (List.filter p1 l)) + sumZ (map g (List.filter p2 l))
  = sumZ (map g (List.filter p3 l)) + sumZ (map g (List.filter p4 l)).
Proof.
  induction 1 as [|x l Hx _ IH]; [done|]. cbn [List.filter].
  destruct (p1 x), (p2 x), (p3 x), (p4 x); cbn [Z.b2z] in Hx;
    try discriminate Hx; cbn [map];
    repeat match goal with
      | |- context [sumZ (?a :: ?r)] =>
          change (sumZ (a :: r)) with (a + sumZ r)
      end; lia.
Qed.

(** X15 (adjacent windows share their common bound).  Because both ends
    of a window are included, the totals of the windows [from a to b] and
    [from b to c] add up, as [int64], to the totals of [from a to c] plus
    those of the window [from b to b]: the details at the instant [b] are
    counted in both. *)
Theorem adjacent_windows_share_their_bound
    now snapshot flt sa sb sc a b c rab rbc rac rbb :
  isEmpty sa = false -> isEmpty sb = false -> isEmpty sc = false ->
  Parse time.RFC3339 sa = Some a -> Parse time.RFC3339 sb = Some b ->
  Parse time.RFC3339 sc = Some c ->
  wallBound a -> wallBound b -> wallBound c ->
  time.abs_ns a <= time.abs_ns b <= time.abs_ns c ->
  Forall (fun d => time.wf (usage.Timestamp d)) (allDetails snapshot) ->
  Returns Parse lookup now snapshot (mkQuery sa sb flt) rab ->
  Returns Parse lookup now snapshot (mkQuery sb sc flt) rbc ->
  Returns Parse lookup now snapshot (mkQuery sa sc flt) rac ->
  Returns Parse lookup now snapshot (mkQuery sb sb flt) rbb ->
  add64 (TotalsMetrics.Requests (Totals rab))
    (TotalsMetrics.Requests (Totals rbc))
  = add64 (TotalsMetrics.Requests (Totals rac))
      (TotalsMetrics.Requests (Totals rbb)) /\
  add64 (TotalsMetrics.Tokens (Totals rab)) (TotalsMetrics.Tokens (Totals rbc))
  = add64 (TotalsMetrics.Tokens (Totals rac))
      (TotalsMetrics.Tokens (Totals rbb)).
Proof.
  intros Hsa Hsb Hsc Hpa Hpb Hpc Ha Hb Hc Hord Hall Hab Hbc Hac Hbb.
  assert (forall s1 s2 t1 t2 r,
            isEmpty s1 = false -> isEmpty s2 = false ->
            Parse time.RFC3339 s1 = Some t1 ->
            Parse time.RFC3339 s2 = Some t2 ->
            Returns Parse lookup now snapshot (mkQuery s1 s2 flt) r ->
            Totals r
            = TotalsMetrics.mk
                (wrap64 (sumZ (tokensOf (matching t1 t2 flt snapshot))))
                (wrap64 (Z.of_nat (length (matching t1 t2 flt snapshot)))))
    as Htot.
  { intros s1 s2 t1 t2 r H1 H2 Hp1 Hp2 (f & t & Hw & ->)%Returns_report.
    unfold window, parseBound in Hw. cbn [fromStr toStr] in Hw.
    rewrite H1, H2, Hp1, Hp2 in Hw. injection Hw as <- <-.
    cbn [modelFilter].
    by destruct (report_Aggregates lookup t1 t2 flt snapshot) as (-> & _). }
  rewrite (Htot _ _ _ _ _ Hsa Hsb Hpa Hpb Hab).
  rewrite (Htot _ _ _ _ _ Hsb Hsc Hpb Hpc Hbc).
  rewrite (Htot _ _ _ _ _ Hsa Hsc Hpa Hpc Hac).
  rewrite (Htot _ _ _ _ _ Hsb Hsb Hpb Hpb Hbb).
  cbn [TotalsMetrics.Requests TotalsMetrics.Tokens]. rewrite !add64_wrap.
  assert (Forall (fun e : string * usage.RequestDetail =>
                    Z.b2z (inWindow a b (snd e)) + Z.b2z (inWindow b c (snd e))
                    = Z.b2z (inWindow a c (snd e))
                      + Z.b2z (inWindow b b (snd e)))
            (visited flt snapshot)) as Hind.
  { apply List.Forall_forall. intros [name d] Hin%visited_allDetails.
    rewrite Forall_forall in Hall.
    assert (time.wf (usage.Timestamp d)) as Hd
      by (by apply Hall, list_elem_of_In).
    cbn [snd]. rewrite !inWindow_wall by done.
    repeat match goal with
      | |- context [?x <=? ?y] => destruct (Z.leb_spec x y)
      end; cbn; lia. }
  split; apply (f_equal wrap64).
  - rewrite !length_sumZ. unfold matching.
    by apply (filter_sums (fun _ => 1)).
  - unfold tokensOf, matching.
    by apply (filter_sums
                (fun e => usage.TotalTokens (usage.Tokens (snd e)))).
Qed.

End Further.

(** * The further properties on concrete calls *)

Lemma totals_count_matching_witness :
  Returns time.ParseUTC Scenario.zones Scenario.now Bounds.snapshot
    Scenario.query Bounds.reported /\
  let counted :=
    matching (time.DateUTC 2024 1 1 0 0 0) (time.DateUTC 2024 1 1 23 59 59)
      EmptyString Bounds.snapshot in
  TotalsMetrics.Requests (Totals Bounds.reported) = Z.of_nat (length counted) /\
  TotalsMetrics.Tokens (Totals Bounds.reported) = sumZ (tokensOf counted).
Proof.
  split; [vm_compute; reflexivity|].
  destruct (totals_count_matching time.ParseUTC Scenario.zones Scenario.now
              Bounds.snapshot Scenario.query Bounds.reported)
    as (f & t & Hw & _ & _ & Hexact); [vm_compute; reflexivity|].
  vm_compute in Hw. injection Hw as <- <-.
  apply Hexact. repeat split. repeat constructor; cbn; lia.
Defined.

Lemma by_model_rows_witness :
  Returns time.ParseUTC Scenario.zones Scenario.now Scenario.snapshot
    Scenario.query Scenario.expected /\
  In "claude"%string (map ModelMetrics.Model (ByModel Scenario.expected)) /\
  forall x, In x (ByModel Scenario.expected) -> 1 <= ModelMetrics.Requests x.
Proof.
  split; [vm_compute; reflexivity|].
  destruct (by_model_rows time.ParseUTC Scenario.zones Scenario.now
              Scenario.snapshot Scenario.query Scenario.expected)
    as (f & t & Hw & Hrows & Hpos); [vm_compute; reflexivity|].
  vm_compute in Hw. injection Hw as <- <-. split.
  - apply Hrows.
    exists (Scenario.detail (time.DateUTC 2024 1 1 11 10 0) 200).
    vm_compute. right. right. left. reflexivity.
  - apply Hpos. repeat split. repeat constructor; cbn; lia.
Defined.

Lemma timeseries_rows_witness :
  Returns time.ParseUTC Scenario.zones Scenario.now Scenario.snapshot
    Scenario.query Scenario.expected /\
  exists buckets : list time.Time,
    NoDup buckets /\
    Permutation (Timeseries Scenario.expected)
      (map (fun b =>
              bucketRow Scenario.zones b
                (matching (time.DateUTC 2024 1 1 0 0 0)
                   (time.DateUTC 2024 1 1 23 59 59) EmptyString
                   Scenario.snapshot))
         buckets).
Proof.
  split; [vm_compute; reflexivity|].
  destruct (timeseries_rows time.ParseUTC Scenario.zones Scenario.now
              Scenario.snapshot Scenario.query Scenario.expected)
    as (f & t & Hw & buckets & Hnd & _ & Hperm); [vm_compute; reflexivity|].
  vm_compute in Hw. injection Hw as <- <-.
  exists buckets. split; [exact Hnd|exact Hperm].
Defined.

Lemma empty_report_iff_nothing_counted_witness :
  Returns time.ParseUTC Scenario.zones Scenario.now Scenario.snapshot
    Scenario.query Scenario.expected /\
  (Scenario.expected = emptyReport <->
   matching (time.DateUTC 2024 1 1 0 0 0) (time.DateUTC 2024 1 1 23 59 59)
     EmptyString Scenario.snapshot = []).
Proof.
  split; [vm_compute; reflexivity|].
  destruct (empty_report_iff_nothing_counted time.ParseUTC Scenario.zones
              Scenario.now Scenario.snapshot Scenario.query Scenario.expected)
    as (f & t & Hw & Hiff & _); [vm_compute; reflexivity|].
  vm_compute in Hw. injection Hw as <- <-. exact Hiff.
Defined.

Lemma sequences_sorted_witness :
  Returns time.ParseUTC Scenario.zones Scenario.now Scenario.snapshot
    Scenario.query Scenario.expected /\
  StronglySorted (fun a b => String.ltb a b = true)
    (map ModelMetrics.Model (ByModel Scenario.expected)) /\
  StronglySorted (fun a b => String.ltb b a = false)
    (map TimeseriesBucket.BucketStart (Timeseries Scenario.expected)).
Proof.
  split; [vm_compute; reflexivity|].
  destruct (sequences_sorted time.ParseUTC Scenario.zones Scenario.now
              Scenario.snapshot Scenario.query Scenario.expected)
    as (Hbm & _ & Hts); [vm_compute; reflexivity|].
  split; [exact Hbm|exact Hts].
Defined.

Lemma sequences_determined_witness :
  Returns time.ParseUTC Scenario.zones Scenario.now Scenario.snapshot
    Scenario.query Scenario.expected /\
  forall l : list ModelMetrics,
    Permutation l
      (map snd
         (map_to_list
            (modelMetricsMap
               (traverse Scenario.zones (time.DateUTC 2024 1 1 0 0 0)
                  (time.DateUTC 2024 1 1 23 59 59) EmptyString
                  Scenario.snapshot)))) ->
    Sorted (fun a b => String.ltb (ModelMetrics.Model b)
                         (ModelMetrics.Model a) = false) l ->
    l = ByModel Scenario.expected.
Proof.
  split; [vm_compute; reflexivity|].
  destruct (sequences_determined time.ParseUTC Scenario.zones Scenario.now
              Scenario.snapshot Scenario.query Scenario.expected)
    as (f & t & Hw & Hbm & _); [vm_compute; reflexivity|].
  vm_compute in Hw. injection Hw as <- <-. exact Hbm.
Defined.

Lemma same_details_same_report_witness :
  let swapped :=
    usage.mkStatisticsSnapshot (rev (usage.APIs TwoProviders.snapshot)) in
  Permutation (visited EmptyString TwoProviders.snapshot)
    (visited EmptyString swapped) /\
  Returns time.ParseUTC Scenario.zones Scenario.now swapped Scenario.query
    TwoProviders.reported.
Proof.
  intros swapped.
  assert (Permutation (visited EmptyString TwoProviders.snapshot)
            (visited EmptyString swapped)) as Hperm
    by (vm_compute; apply perm_swap).
  split; [exact Hperm|].
  destruct (same_details_same_report time.ParseUTC Scenario.zones Scenario.now
              TwoProviders.snapshot swapped Scenario.query
              TwoProviders.reported
              (report Scenario.zones (time.DateUTC 2024 1 1 0 0 0)
                 (time.DateUTC 2024 1 1 23 59 59) EmptyString swapped))
    as (_ & _ & _).
  - exact Hperm.
  - vm_compute. reflexivity.
  - vm_compute. reflexivity.
  - vm_compute. reflexivity.
Defined.

Lemma default_window_last_24h_witness :
  let lo := time.Add LastDay.now (-24 * time.Hour) in
  let counted t tokens :=
    In ("gpt"%string, Scenario.detail t tokens)
      (matching lo LastDay.now EmptyString LastDay.snapshot) in
  time.wf LastDay.now /\
  24 * time.Hour < time.abs_ns LastDay.now /\
  Returns time.ParseUTC Scenario.zones LastDay.now LastDay.snapshot
    (mkQuery EmptyString EmptyString EmptyString) LastDay.reported /\
  Aggregates Scenario.zones
    (matching lo LastDay.now EmptyString LastDay.snapshot) LastDay.reported /\
  counted LastDay.recent 10 /\
  counted LastDay.dayOld 20 /\
  ~ counted LastDay.older 40.
Proof.
  intros lo counted.
  assert (time.wf LastDay.now) as Hwf by (unfold time.wf; cbn; lia).
  assert (24 * time.Hour < time.abs_ns LastDay.now) as Hlate
    by (vm_compute; reflexivity).
  split; [exact Hwf|]. split; [exact Hlate|].
  destruct (default_window_last_24h time.ParseUTC Scenario.zones LastDay.now
              LastDay.snapshot EmptyString Hwf Hlate)
    as (resp & Hret & Hagg & Hin).
  assert (resp = LastDay.reported) as ->.
  { vm_compute in Hret. injection Hret as <-. vm_compute. reflexivity. }
  split; [exact Hret|]. split; [exact Hagg|].
  split; [|split].
  - destruct (Hin "gpt"%string (Scenario.detail LastDay.recent 10))
      as [Hmono _].
    + vm_compute. left. reflexivity.
    + unfold time.wf. cbn. lia.
    + apply (Hmono (29 * time.Hour) (30 * time.Hour)); [reflexivity..|].
      split; vm_compute; discriminate.
  - destruct (Hin "gpt"%string (Scenario.detail LastDay.dayOld 20))
      as [_ Hwall].
    + vm_compute. right. left. reflexivity.
    + unfold time.wf. cbn. lia.
    + apply Hwall; [left; reflexivity|]. split; vm_compute; discriminate.
  - destruct (Hin "gpt"%string (Scenario.detail LastDay.older 40))
      as [_ Hwall].
    + vm_compute. right. right. left. reflexivity.
    + unfold time.wf. cbn. lia.
    + intros Hc. apply Hwall in Hc; [|left; reflexivity].
      destruct Hc as [Hc _]. apply Hc. vm_compute. reflexivity.
Defined.

Lemma inverted_window_counts_nothing_witness :
  GetMetrics time.ParseUTC Scenario.zones Scenario.now Scenario.snapshot
    (mkQuery "2024-01-02T00:00:00Z" "2024-01-01T00:00:00Z" EmptyString)
  = [Snapshot; Println emptyReport; JSON http.StatusOK (ReportBody emptyReport)].
Proof.
  apply (inverted_window_counts_nothing time.ParseUTC Scenario.zones
           Scenario.now Scenario.snapshot
           (mkQuery "2024-01-02T00:00:00Z" "2024-01-01T00:00:00Z" EmptyString)
           (time.DateUTC 2024 1 2 0 0 0) (time.DateUTC 2024 1 1 0 0 0)).
  - reflexivity.
  - reflexivity.
  - vm_compute. reflexivity.
  - vm_compute. reflexivity.
  - reflexivity.
  - reflexivity.
  - unfold time.wf. cbn. lia.
  - unfold time.wf. cbn. lia.
  - split; vm_compute; reflexivity.
  - repeat constructor; try (cbn; lia).
Defined.

Lemma same_bucket_iff_same_hour_and_location_witness :
  let e1 := ("gpt"%string, Scenario.detail (time.DateUTC 2024 1 1 10 5 0) 100) in
  let e2 :=
    ("claude"%string, Scenario.detail (time.DateUTC 2024 1 1 10 50 0) 50) in
  time.wf (usage.Timestamp (snd e1)) /\ time.wf (usage.Timestamp (snd e2)) /\
  bucketOf e1 = bucketOf e2.
Proof.
  intros e1 e2.
  assert (time.wf (usage.Timestamp (snd e1))) as H1
    by (unfold time.wf; cbn; lia).
  assert (time.wf (usage.Timestamp (snd e2))) as H2
    by (unfold time.wf; cbn; lia).
  split; [exact H1|]. split; [exact H2|].
  apply (same_bucket_iff_same_hour_and_location e1 e2 H1 H2).
  split; vm_compute; reflexivity.
Defined.

Lemma model_filter_projects_witness :
  let q := mkQuery "2024-01-01T00:00:00Z" "2024-01-01T23:59:59Z" "gpt" in
  let resp :=
    {| Totals := TotalsMetrics.mk 150 2;
       ByModel := [ModelMetrics.mk "gpt" 150 2];
       Timeseries := [TimeseriesBucket.mk "2024-01-01T10:00:00Z" 150 2] |} in
  isEmpty (modelFilter q) = false /\
  Returns time.ParseUTC Scenario.zones Scenario.now Scenario.snapshot q resp /\
  Returns time.ParseUTC Scenario.zones Scenario.now Scenario.snapshot
    (withoutFilter q) Scenario.expected /\
  ByModel resp
  = List.filter (fun x => bool_decide (ModelMetrics.Model x = "gpt"%string))
      (ByModel Scenario.expected).
Proof.
  intros q resp.
  split; [reflexivity|].
  split; [vm_compute; reflexivity|].
  split; [vm_compute; reflexivity|].
  destruct (model_filter_projects time.ParseUTC Scenario.zones Scenario.now
              Scenario.snapshot q resp Scenario.expected) as (Hbm & _ & _).
  - reflexivity.
  - vm_compute. reflexivity.
  - vm_compute. reflexivity.
  - exact Hbm.
Defined.

Lemma totals_add_over_providers_witness :
  let s2 := renameProviders (fun _ => "P2"%string) Bounds.snapshot in
  let resp :=
    report Scenario.zones (time.DateUTC 2024 1 1 0 0 0)
      (time.DateUTC 2024 1 1 23 59 59) EmptyString
      (appendProviders Scenario.snapshot s2) in
  Returns time.ParseUTC Scenario.zones Scenario.now Scenario.snapshot
    Scenario.query Scenario.expected /\
  Returns time.ParseUTC Scenario.zones Scenario.now s2 Scenario.query
    Bounds.reported /\
  Returns time.ParseUTC Scenario.zones Scenario.now
    (appendProviders Scenario.snapshot s2) Scenario.query resp /\
  TotalsMetrics.Requests (Totals resp) = add64 3 2 /\
  TotalsMetrics.Tokens (Totals resp) = add64 350 6.
Proof.
  intros s2 resp.
  split; [vm_compute; reflexivity|].
  split; [vm_compute; reflexivity|].
  split; [vm_compute; reflexivity|].
  apply (totals_add_over_providers time.ParseUTC Scenario.zones Scenario.now
           Scenario.snapshot s2 Scenario.query Scenario.expected
           Bounds.reported resp).
  - vm_compute. reflexivity.
  - vm_compute. reflexivity.
  - vm_compute. reflexivity.
Defined.

Lemma narrower_window_counts_no_more_witness :
  let q' := mkQuery "2024-01-01T11:00:00Z" "2024-01-01T12:00:00Z" EmptyString in
  let resp' :=
    {| Totals := TotalsMetrics.mk 200 1;
       ByModel := [ModelMetrics.mk "claude" 200 1];
       Timeseries := [TimeseriesBucket.mk "2024-01-01T11:00:00Z" 200 1] |} in
  Returns time.ParseUTC Scenario.zones Scenario.now Scenario.snapshot
    Scenario.query Scenario.expected /\
  Returns time.ParseUTC Scenario.zones Scenario.now Scenario.snapshot q' resp' /\
  0 <= TotalsMetrics.Requests (Totals resp')
    <= TotalsMetrics.Requests (Totals Scenario.expected) /\
  0 <= TotalsMetrics.Tokens (Totals resp')
    <= TotalsMetrics.Tokens (Totals Scenario.expected).
Proof.
  intros q' resp'.
  split; [vm_compute; reflexivity|].
  split; [vm_compute; reflexivity|].
  apply (narrower_window_counts_no_more time.ParseUTC Scenario.zones
           Scenario.now Scenario.snapshot Scenario.query q'
           (time.DateUTC 2024 1 1 0 0 0) (time.DateUTC 2024 1 1 23 59 59)
           (time.DateUTC 2024 1 1 11 0 0) (time.DateUTC 2024 1 1 12 0 0)
           Scenario.expected resp').
  - reflexivity.
  - vm_compute. reflexivity.
  - vm_compute. reflexivity.
  - unfold wallBound, time.wf. cbn. repeat split; lia.
  - unfold wallBound, time.wf. cbn. repeat split; lia.
  - unfold wallBound, time.wf. cbn. repeat split; lia.
  - unfold wallBound, time.wf. cbn. repeat split; lia.
  - vm_compute. discriminate.
  - vm_compute. discriminate.
  - repeat constructor; try (cbn; lia).
  - repeat split. repeat constructor; cbn; lia.
  - vm_compute. reflexivity.
  - vm_compute. reflexivity.
Defined.

Lemma adjacent_windows_share_their_bound_witness :
  let a := time.DateUTC 2023 12 31 0 0 0 in
  let b := time.DateUTC 2024 1 1 0 0 0 in
  let c := time.DateUTC 2024 1 2 0 0 0 in
  let run := report Scenario.zones in
  wallBound a /\ wallBound b /\ wallBound c /\
  time.abs_ns a <= time.abs_ns b <= time.abs_ns c /\
  add64
    (TotalsMetrics.Requests (Totals (run a b EmptyString Bounds.snapshot)))
    (TotalsMetrics.Requests (Totals (run b c EmptyString Bounds.snapshot)))
  = add64
      (TotalsMetrics.Requests (Totals (run a c EmptyString Bounds.snapshot)))
      (TotalsMetrics.Requests (Totals (run b b EmptyString Bounds.snapshot))).
Proof.
  intros a b c run.
  assert (wallBound a) as Ha
    by (unfold wallBound, time.wf; cbn; repeat split; lia).
  assert (wallBound b) as Hb
    by (unfold wallBound, time.wf; cbn; repeat split; lia).
  assert (wallBound c) as Hc
    by (unfold wallBound, time.wf; cbn; repeat split; lia).
  assert (time.abs_ns a <= time.abs_ns b <= time.abs_ns c) as Hord
    by (split; vm_compute; discriminate).
  split; [exact Ha|]. split; [exact Hb|]. split; [exact Hc|].
  split; [exact Hord|].
  apply (adjacent_windows_share_their_bound time.ParseUTC Scenario.zones
           Scenario.now Bounds.snapshot EmptyString
           "2023-12-31T00:00:00Z" "2024-01-01T00:00:00Z" "2024-01-02T00:00:00Z"
           a b c).
  - reflexivity.
  - reflexivity.
  - reflexivity.
  - vm_compute. reflexivity.
  - vm_compute. reflexivity.
  - vm_compute. reflexivity.
  - exact Ha.
  - exact Hb.
  - exact Hc.
  - exact Hord.
  - repeat constructor; try (cbn; lia).
  - vm_compute. reflexivity.
  - vm_compute. reflexivity.
  - vm_compute. reflexivity.
  - vm_compute. reflexivity.
Defined.
